(** * Vault sample application (python-app): token lifecycle and secret caches

    A shallow embedding of [samples/python-app/vault_client.py] (class
    [VaultClient]) and of the re-wrapping step of
    [samples/python-app/vault_app.py], with the properties of the token
    lifecycle tracker and of the three secret caches.

    Conventions of the embedding:
    - [time.time()] returns a Python float; readings of the clock are
      idealised as rationals ([Q]), the literal [0.8] is the rational 8/10 and
      [int(x)] is truncation toward zero;
    - every call of [time.time()] is a new reading of the clock;
    - the hvac client is the boundary to the remote endpoint: a call either
      returns a response or raises ([VaultError], or any other exception);
    - logging has no effect on the state and is left out. *)

From Stdlib Require Import QArith ZArith Qround Lia.
From stdpp Require Import gmap strings.

Local Open Scope string_scope.
Local Set Warnings "-register-all".

(** ** Python values *)

(** The payloads handed through by the client (secret data, the wrapper
    dictionaries it builds) are JSON-like Python values.  A [dict] keeps its
    items in insertion order. *)
Inductive pyval : Type :=
| PyNone
| PyBool (b : bool)
| PyInt (n : Z)
| PyStr (s : string)
| PyDict (items : list (string * pyval)).

(** [d.get(key)]: the value of the first item stored under [key]. *)
Fixpoint dict_get (items : list (string * pyval)) (key : string) : option pyval :=
  match items with
  | [] => None
  | (k, v) :: rest => if String.eqb k key then Some v else dict_get rest key
  end.

(** [d.get(key, default)] *)
Definition dict_get_default (items : list (string * pyval)) (key : string)
    (default : pyval) : pyval :=
  match dict_get items key with
  | Some v => v
  | None => default
  end.

(** Python truth value of an object. *)
Definition truthy (v : pyval) : bool :=
  match v with
  | PyNone => false
  | PyBool b => b
  | PyInt n => negb (n =? 0)%Z
  | PyStr s => negb (String.eqb s "")
  | PyDict items => match items with [] => false | _ :: _ => true end
  end.

(** Truth value of [self.token], which is [None] or a string. *)
Definition token_truthy (t : option string) : bool :=
  match t with
  | None => false
  | Some s => negb (String.eqb s "")
  end.

(** [int(x)] for a float [x]: truncation toward zero. *)
Definition py_int (x : Q) : Z := Z.quot (Qnum x) (Z.pos (Qden x)).

(** [x < y] on clock values, as a boolean. *)
Definition Qlt_bool (x y : Q) : bool := negb (Qle_bool y x).

(** ** Configuration and cache entries *)

(** The dictionary built by [VaultConfig.get_vault_config]: always these five
    keys. *)
Record Config : Type := {
  entity : string;
  url : string;
  namespace : option string;
  role_id : string;
  secret_id : string
}.

(** Modelled from the spec: the [metadata] of a versioned secret, which the
    endpoint returns with a [version] (section 6, [readVersionedSecret]). *)
Record Metadata : Type := { version : Z }.

(** An entry of [kv_cache]: [{'data', 'metadata', 'timestamp'}]. *)
Record KvEntry : Type := {
  kv_data : pyval;
  kv_metadata : Metadata;
  kv_timestamp : Q
}.

(** An entry of [db_dynamic_cache] and of [db_static_cache]:
    [{'data', 'ttl', 'timestamp'}]. *)
Record DbEntry : Type := {
  db_data : pyval;
  db_ttl : Z;
  db_timestamp : Q
}.

(** ** The client object *)

Record VaultClient : Type := {
  config : Config;
  client_token : option string;   (* self.client.token *)
  token : option string;          (* self.token *)
  token_issued_time : Q;
  token_ttl : Z;
  kv_cache : gmap string KvEntry;
  db_dynamic_cache : gmap string DbEntry;
  db_static_cache : gmap string DbEntry
}.

(** [VaultClient.__init__] *)
Definition init (cfg : Config) : VaultClient :=
  {| config := cfg;
     client_token := None;
     token := None;
     token_issued_time := 0;
     token_ttl := 0;
     kv_cache := ∅;
     db_dynamic_cache := ∅;
     db_static_cache := ∅ |}.

(** ** The remote endpoint *)

Inductive exn : Type :=
| VaultError (msg : string)
| PyException (msg : string).

Inductive outcome (A : Type) : Type :=
| Returned (a : A)
| Raised (e : exn).
Arguments Returned {A} a.
Arguments Raised {A} e.

(** Modelled from the spec: the responses of the remote endpoint (section 6);
    hvac is not part of the repository.  Each record holds the fields the
    client reads from the response. *)
Record AuthResponse : Type := {       (* response['auth'] of login *)
  auth_client_token : string;
  auth_lease_duration : Z
}.

Record RenewResponse : Type := {      (* response['auth'] of renew_self *)
  renew_lease_duration : Z
}.

Record KvResponse : Type := {         (* response['data'] of read_secret_version *)
  resp_data : pyval;
  resp_metadata : Metadata
}.

Record DynamicResponse : Type := {    (* generate_credentials *)
  dyn_data : pyval;
  dyn_lease_duration : Z
}.

Record StaticResponse : Type := {     (* get_static_credentials *)
  static_data : pyval;
  static_ttl : option Z               (* the key 'ttl' may be missing *)
}.

(** The remote calls the client makes, with their arguments. *)
Inductive Call : Type :=
| AppRoleLogin (role secret : string)
| RenewSelf (tok : option string)
| ReadSecretVersion (path mount_point : string)
| GenerateCredentials (name mount_point : string)
| GetStaticCredentials (name mount_point : string).

(** The environment of a run: the clock and the endpoint.  The [n]-th reading
    of the clock is [time_time n]; the endpoint answers a call as a function of
    the calls made before it, so that any sequence of answers is covered. *)
Record Env : Type := {
  time_time : nat -> Q;
  approle_login : list Call -> string -> string -> outcome AuthResponse;
  renew_self : list Call -> option string -> outcome RenewResponse;
  read_secret_version : list Call -> string -> string -> outcome KvResponse;
  generate_credentials : list Call -> string -> string -> outcome DynamicResponse;
  get_static_credentials : list Call -> string -> string -> outcome StaticResponse
}.

(** What a run changes: the client object, the number of clock readings taken
    and the remote calls made (latest first). *)
Record World : Type := {
  self : VaultClient;
  clock_reads : nat;
  calls : list Call
}.

(** ** A state and exception monad for the methods *)

Definition M (A : Type) : Type := Env -> World -> outcome A * World.

Definition ret {A} (a : A) : M A := fun _ w => (Returned a, w).

Definition bind {A B} (m : M A) (k : A -> M B) : M B :=
  fun env w =>
    match m env w with
    | (Returned a, w') => k a env w'
    | (Raised e, w') => (Raised e, w')
    end.

Declare Scope py_scope.
Delimit Scope py_scope with py.
Notation "x <- m ;; k" := (bind m (fun x => k))
  (at level 100, m at next level, right associativity) : py_scope.
Notation "m ;; k" := (bind m (fun _ => k))
  (at level 100, right associativity) : py_scope.
Local Open Scope py_scope.

(** [try: body except VaultError: ... except Exception: ...] *)
Definition try_except {A} (body : M A) (handler : exn -> M A) : M A :=
  fun env w =>
    match body env w with
    | (Returned a, w') => (Returned a, w')
    | (Raised e, w') => handler e env w'
    end.

Definition get_self : M VaultClient := fun _ w => (Returned (self w), w).

Definition set_self (s : VaultClient) : M unit :=
  fun _ w => (Returned tt, {| self := s; clock_reads := clock_reads w; calls := calls w |}).

(** [time.time()] *)
Definition now : M Q :=
  fun env w =>
    (Returned (time_time env (clock_reads w)),
     {| self := self w; clock_reads := S (clock_reads w); calls := calls w |}).

(** A call to the endpoint: logged, then answered or raised. *)
Definition remote {A} (c : Call) (answer : Env -> list Call -> outcome A) : M A :=
  fun env w =>
    (answer env (calls w),
     {| self := self w; clock_reads := clock_reads w; calls := c :: calls w |}).

(** Assignments to the attributes of [self]. *)
Definition set_token (t : option string) (s : VaultClient) : VaultClient :=
  {| config := config s; client_token := client_token s; token := t;
     token_issued_time := token_issued_time s; token_ttl := token_ttl s;
     kv_cache := kv_cache s; db_dynamic_cache := db_dynamic_cache s;
     db_static_cache := db_static_cache s |}.

Definition set_token_issued_time (t : Q) (s : VaultClient) : VaultClient :=
  {| config := config s; client_token := client_token s; token := token s;
     token_issued_time := t; token_ttl := token_ttl s;
     kv_cache := kv_cache s; db_dynamic_cache := db_dynamic_cache s;
     db_static_cache := db_static_cache s |}.

Definition set_token_ttl (ttl : Z) (s : VaultClient) : VaultClient :=
  {| config := config s; client_token := client_token s; token := token s;
     token_issued_time := token_issued_time s; token_ttl := ttl;
     kv_cache := kv_cache s; db_dynamic_cache := db_dynamic_cache s;
     db_static_cache := db_static_cache s |}.

Definition set_client_token (t : option string) (s : VaultClient) : VaultClient :=
  {| config := config s; client_token := t; token := token s;
     token_issued_time := token_issued_time s; token_ttl := token_ttl s;
     kv_cache := kv_cache s; db_dynamic_cache := db_dynamic_cache s;
     db_static_cache := db_static_cache s |}.

Definition set_kv_cache (c : gmap string KvEntry) (s : VaultClient) : VaultClient :=
  {| config := config s; client_token := client_token s; token := token s;
     token_issued_time := token_issued_time s; token_ttl := token_ttl s;
     kv_cache := c; db_dynamic_cache := db_dynamic_cache s;
     db_static_cache := db_static_cache s |}.

Definition set_db_dynamic_cache (c : gmap string DbEntry) (s : VaultClient) : VaultClient :=
  {| config := config s; client_token := client_token s; token := token s;
     token_issued_time := token_issued_time s; token_ttl := token_ttl s;
     kv_cache := kv_cache s; db_dynamic_cache := c;
     db_static_cache := db_static_cache s |}.

Definition set_db_static_cache (c : gmap string DbEntry) (s : VaultClient) : VaultClient :=
  {| config := config s; client_token := client_token s; token := token s;
     token_issued_time := token_issued_time s; token_ttl := token_ttl s;
     kv_cache := kv_cache s; db_dynamic_cache := db_dynamic_cache s;
     db_static_cache := c |}.

(** [self.attr = value] *)
Definition assign (f : VaultClient -> VaultClient) : M unit :=
  s <- get_self ;; set_self (f s).

(** ** Token lifecycle: [login], [renew_token], [is_token_expired],
    [ensure_valid_token] *)

Definition login : M bool :=
  try_except
    (s <- get_self ;;
     response <- remote (AppRoleLogin (role_id (config s)) (secret_id (config s)))
                   (fun env history =>
                      approle_login env history (role_id (config s)) (secret_id (config s))) ;;
     assign (set_token (Some (auth_client_token response))) ;;
     t <- now ;;
     assign (set_token_issued_time t) ;;
     assign (set_token_ttl (auth_lease_duration response)) ;;
     s' <- get_self ;;
     assign (set_client_token (token s')) ;;
     ret true)
    (fun e =>
       match e with
       | VaultError _ => ret false
       | PyException _ => ret false
       end).

Definition renew_token : M bool :=
  try_except
    (s <- get_self ;;
     response <- remote (RenewSelf (client_token s))
                   (fun env history => renew_self env history (client_token s)) ;;
     t <- now ;;
     assign (set_token_issued_time t) ;;
     assign (set_token_ttl (renew_lease_duration response)) ;;
     ret true)
    (fun e =>
       match e with
       | VaultError _ => ret false
       | PyException _ => ret false
       end).

Definition is_token_expired : M bool :=
  s <- get_self ;;
  if negb (token_truthy (token s)) || (token_ttl s <=? 0)%Z then ret true
  else
    t <- now ;;
    let elapsed_time := (t - token_issued_time s)%Q in
    ret (Qle_bool (inject_Z (token_ttl s) * 0.8)%Q elapsed_time).

Definition ensure_valid_token : M bool :=
  s <- get_self ;;
  expired <- (if negb (token_truthy (token s)) then ret true else is_token_expired) ;;
  if expired then login
  else
    expired' <- is_token_expired ;;
    if expired' then renew_token else ret true.

(** ** The three get-secret operations *)

(** The remote read of [get_kv_secret] and what follows it in the [try]
    block. *)
Definition fetch_kv_secret (path : string) : M pyval :=
  s <- get_self ;;
  response <- remote (ReadSecretVersion path (entity (config s) ++ "-kv"))
                (fun env history =>
                   read_secret_version env history path (entity (config s) ++ "-kv")) ;;
  let secret_data := resp_data response in
  let metadata := resp_metadata response in
  t <- now ;;
  assign (fun s => set_kv_cache
            (<[path := {| kv_data := secret_data; kv_metadata := metadata;
                          kv_timestamp := t |}]> (kv_cache s)) s) ;;
  ret secret_data.

Definition get_kv_secret (path : string) : M pyval :=
  ok <- ensure_valid_token ;;
  if negb ok then ret PyNone
  else
    try_except
      (s <- get_self ;;
       match kv_cache s !! path with
       | Some cached_data =>
           current_time <- now ;;
           if Qlt_bool (current_time - kv_timestamp cached_data)%Q 300%Q
           then ret (kv_data cached_data)
           else fetch_kv_secret path
       | None => fetch_kv_secret path
       end)
      (fun e =>
         match e with
         | VaultError _ => ret PyNone
         | PyException _ => ret PyNone
         end).

(** The remote call of [get_database_dynamic_secret] and what follows it. *)
Definition fetch_database_dynamic_secret (role : string) : M pyval :=
  let cache_key := role in
  s <- get_self ;;
  response <- remote (GenerateCredentials role (entity (config s) ++ "-database"))
                (fun env history =>
                   generate_credentials env history role (entity (config s) ++ "-database")) ;;
  let secret_data := dyn_data response in
  let ttl := dyn_lease_duration response in
  t <- now ;;
  assign (fun s => set_db_dynamic_cache
            (<[cache_key := {| db_data := secret_data; db_ttl := ttl;
                               db_timestamp := t |}]> (db_dynamic_cache s)) s) ;;
  ret (PyDict [("data", secret_data); ("ttl", PyInt ttl)]).

Definition get_database_dynamic_secret (role : string) : M pyval :=
  ok <- ensure_valid_token ;;
  if negb ok then ret PyNone
  else
    try_except
      (let cache_key := role in
       s <- get_self ;;
       match db_dynamic_cache s !! cache_key with
       | Some cached_data =>
           current_time <- now ;;
           let remaining_ttl :=
             (inject_Z (db_ttl cached_data) - (current_time - db_timestamp cached_data))%Q in
           if Qlt_bool 10%Q remaining_ttl
           then ret (PyDict [("data", db_data cached_data);
                             ("ttl", PyInt (py_int remaining_ttl))])
           else fetch_database_dynamic_secret role
       | None => fetch_database_dynamic_secret role
       end)
      (fun e =>
         match e with
         | VaultError _ => ret PyNone
         | PyException _ => ret PyNone
         end).

(** The remote call of [get_database_static_secret] and what follows it. *)
Definition fetch_database_static_secret (role : string) : M pyval :=
  let cache_key := role in
  s <- get_self ;;
  response <- remote (GetStaticCredentials role (entity (config s) ++ "-database"))
                (fun env history =>
                   get_static_credentials env history role (entity (config s) ++ "-database")) ;;
  let secret_data := static_data response in
  let ttl := match static_ttl response with Some n => n | None => 3600%Z end in
  t <- now ;;
  assign (fun s => set_db_static_cache
            (<[cache_key := {| db_data := secret_data; db_ttl := ttl;
                               db_timestamp := t |}]> (db_static_cache s)) s) ;;
  ret (PyDict [("data", secret_data); ("ttl", PyInt ttl)]).

Definition get_database_static_secret (role : string) : M pyval :=
  ok <- ensure_valid_token ;;
  if negb ok then ret PyNone
  else
    try_except
      (let cache_key := role in
       s <- get_self ;;
       match db_static_cache s !! cache_key with
       | Some cached_data =>
           current_time <- now ;;
           if Qlt_bool (current_time - db_timestamp cached_data)%Q 300%Q
           then ret (db_data cached_data)
           else fetch_database_static_secret role
       | None => fetch_database_static_secret role
       end)
      (fun e =>
         match e with
         | VaultError _ => ret PyNone
         | PyException _ => ret PyNone
         end).

(** ** The re-wrapping step of [_database_static_scheduler] ([vault_app.py]) *)

Definition rewrap_static_result (secret_result : pyval) : pyval :=
  match secret_result with
  | PyDict items =>
      if negb (truthy (dict_get_default items "errors" PyNone))
      then PyDict
             [("data", dict_get_default items "data" secret_result);
              ("ttl", dict_get_default items "ttl"
                        (dict_get_default items "lease_duration" (PyInt (-1))))]
      else PyNone
  | _ => PyNone
  end.

(** ** Observations on a run *)

(** The secret reads among the remote calls. *)
Definition is_fetch (c : Call) : bool :=
  match c with
  | ReadSecretVersion _ _ | GenerateCredentials _ _ | GetStaticCredentials _ _ => true
  | AppRoleLogin _ _ | RenewSelf _ => false
  end.

Definition is_renew (c : Call) : bool :=
  match c with
  | RenewSelf _ => true
  | _ => false
  end.

Definition fetch_count (cs : list Call) : nat := length (filter (fun c => is_fetch c = true) cs).
Definition renew_count (cs : list Call) : nat := length (filter (fun c => is_renew c = true) cs).

(** A token is held when [self.token] is true as a Python value. *)
Definition token_held (s : VaultClient) : Prop := token_truthy (token s) = true.

(** One more reading of the clock, nothing else changed. *)
Definition tick (w : World) : World :=
  {| self := self w; clock_reads := S (clock_reads w); calls := calls w |}.

(** One more remote call in the log, nothing else changed. *)
Definition logged (c : Call) (w : World) : World :=
  {| self := self w; clock_reads := clock_reads w; calls := c :: calls w |}.

(** The client object replaced, the rest of the world kept. *)
Definition with_self (s : VaultClient) (w : World) : World :=
  {| self := s; clock_reads := clock_reads w; calls := calls w |}.

(** The token held by a client: value, issue time and lease. *)
Definition token_state (s : VaultClient) : option string * Q * Z :=
  (token s, token_issued_time s, token_ttl s).

(** The three caches of a client. *)
Definition caches (s : VaultClient)
    : gmap string KvEntry * gmap string DbEntry * gmap string DbEntry :=
  (kv_cache s, db_dynamic_cache s, db_static_cache s).

(** The call [login] makes, and the client after a successful login whose
    clock reading was [t]. *)
Definition login_call (s : VaultClient) : Call :=
  AppRoleLogin (role_id (config s)) (secret_id (config s)).

Definition after_login (response : AuthResponse) (t : Q) (s : VaultClient) : VaultClient :=
  set_client_token (Some (auth_client_token response))
    (set_token_ttl (auth_lease_duration response)
       (set_token_issued_time t
          (set_token (Some (auth_client_token response)) s))).

(** The call [renew_token] makes, and the client after a successful renewal. *)
Definition renew_call (s : VaultClient) : Call := RenewSelf (client_token s).

Definition after_renew (response : RenewResponse) (t : Q) (s : VaultClient) : VaultClient :=
  set_token_ttl (renew_lease_duration response) (set_token_issued_time t s).

(** The freshness rules in the words of the specification: a time-window
    entry is fresh while less than 300 seconds old, a lease-based entry while
    more than 10 seconds of its lease remain. *)
Definition spec_time_window_fresh (now stored_at : Q) : Prop :=
  (now - stored_at < 300)%Q.

Definition spec_remaining_lease (now : Q) (entry : DbEntry) : Q :=
  (inject_Z (db_ttl entry) - (now - db_timestamp entry))%Q.

Definition spec_lease_fresh (now : Q) (entry : DbEntry) : Prop :=
  (spec_remaining_lease now entry > 10)%Q.

(** The entry looked up under a key is there and fresh at clock reading [now],
    per category. *)
Definition kv_usable (s : VaultClient) (path : string) (now : Q) : Prop :=
  exists cached, kv_cache s !! path = Some cached /\
                 spec_time_window_fresh now (kv_timestamp cached).

Definition dynamic_usable (s : VaultClient) (role : string) (now : Q) : Prop :=
  exists cached, db_dynamic_cache s !! role = Some cached /\
                 spec_lease_fresh now cached.

Definition static_usable (s : VaultClient) (role : string) (now : Q) : Prop :=
  exists cached, db_static_cache s !! role = Some cached /\
                 spec_time_window_fresh now (db_timestamp cached).

(** The remote read of each category, and the entry it stores when the clock
    reads [t]. *)
Definition kv_call (s : VaultClient) (path : string) : Call :=
  ReadSecretVersion path (entity (config s) ++ "-kv").

Definition dynamic_call (s : VaultClient) (role : string) : Call :=
  GenerateCredentials role (entity (config s) ++ "-database").

Definition static_call (s : VaultClient) (role : string) : Call :=
  GetStaticCredentials role (entity (config s) ++ "-database").

Definition kv_entry (response : KvResponse) (t : Q) : KvEntry :=
  {| kv_data := resp_data response; kv_metadata := resp_metadata response;
     kv_timestamp := t |}.

Definition dynamic_entry (response : DynamicResponse) (t : Q) : DbEntry :=
  {| db_data := dyn_data response; db_ttl := dyn_lease_duration response;
     db_timestamp := t |}.

Definition static_entry_ttl (response : StaticResponse) : Z :=
  match static_ttl response with Some n => n | None => 3600%Z end.

Definition static_entry (response : StaticResponse) (t : Q) : DbEntry :=
  {| db_data := static_data response; db_ttl := static_entry_ttl response;
     db_timestamp := t |}.

(** The wrapper dictionary [{'data': ..., 'ttl': ...}]. *)
Definition wrapper (data : pyval) (ttl : Z) : pyval :=
  PyDict [("data", data); ("ttl", PyInt ttl)].

(** The clock reading taken last before world [w]. *)
Definition last_reading (env : Env) (w : World) : Q :=
  time_time env (pred (clock_reads w)).

(** What each [try] block yields from its remote read on, at world [w]: the
    call is logged; an answer is stored under the key, stamped with the next
    clock reading, and returned; a raised exception is turned into [None]. *)
Definition kv_fetch_outcome (path : string) (env : Env) (w : World)
    : outcome pyval * World :=
  match read_secret_version env (calls w) path (entity (config (self w)) ++ "-kv") with
  | Returned response =>
      (Returned (resp_data response),
       with_self
         (set_kv_cache
            (<[path := kv_entry response (time_time env (clock_reads w))]>
               (kv_cache (self w)))
            (self w))
         (tick (logged (kv_call (self w) path) w)))
  | Raised _ => (Returned PyNone, logged (kv_call (self w) path) w)
  end.

Definition dynamic_fetch_outcome (role : string) (env : Env) (w : World)
    : outcome pyval * World :=
  match generate_credentials env (calls w) role (entity (config (self w)) ++ "-database") with
  | Returned response =>
      (Returned (wrapper (dyn_data response) (dyn_lease_duration response)),
       with_self
         (set_db_dynamic_cache
            (<[role := dynamic_entry response (time_time env (clock_reads w))]>
               (db_dynamic_cache (self w)))
            (self w))
         (tick (logged (dynamic_call (self w) role) w)))
  | Raised _ => (Returned PyNone, logged (dynamic_call (self w) role) w)
  end.

Definition static_fetch_outcome (role : string) (env : Env) (w : World)
    : outcome pyval * World :=
  match get_static_credentials env (calls w) role (entity (config (self w)) ++ "-database") with
  | Returned response =>
      (Returned (wrapper (static_data response) (static_entry_ttl response)),
       with_self
         (set_db_static_cache
            (<[role := static_entry response (time_time env (clock_reads w))]>
               (db_static_cache (self w)))
            (self w))
         (tick (logged (static_call (self w) role) w)))
  | Raised _ => (Returned PyNone, logged (static_call (self w) role) w)
  end.

(** ** Sample runs *)

Module Samples.

Definition cfg : Config :=
  {| entity := "my-app"; url := "http://127.0.0.1:8200"; namespace := None;
     role_id := "role-1"; secret_id := "secret-1" |}.

(** A client holding token ["s.old"], issued at time 0 with a lease of 100
    seconds, and empty caches. *)
Definition logged_in : VaultClient :=
  {| config := cfg; client_token := Some "s.old"; token := Some "s.old";
     token_issued_time := 0; token_ttl := 100;
     kv_cache := ∅; db_dynamic_cache := ∅; db_static_cache := ∅ |}.

Definition creds : pyval :=
  PyDict [("username", PyStr "v-app"); ("password", PyStr "pw")].

(** An endpoint that answers every call; [clock] gives the readings of
    [time.time()]. *)
Definition env_ok (clock : nat -> Q) : Env :=
  {| time_time := clock;
     approle_login := fun _ _ _ =>
       Returned {| auth_client_token := "s.new"; auth_lease_duration := 3600 |};
     renew_self := fun _ _ => Returned {| renew_lease_duration := 3600 |};
     read_secret_version := fun _ _ _ =>
       Returned {| resp_data := creds; resp_metadata := {| version := 1 |} |};
     generate_credentials := fun _ _ _ =>
       Returned {| dyn_data := creds; dyn_lease_duration := 60 |};
     get_static_credentials := fun _ _ _ =>
       Returned {| static_data := creds; static_ttl := None |} |}.

(** An endpoint on which every call raises. *)
Definition env_down (clock : nat -> Q) : Env :=
  {| time_time := clock;
     approle_login := fun _ _ _ => Raised (VaultError "permission denied");
     renew_self := fun _ _ => Raised (VaultError "permission denied");
     read_secret_version := fun _ _ _ => Raised (PyException "connection refused");
     generate_credentials := fun _ _ _ => Raised (PyException "connection refused");
     get_static_credentials := fun _ _ _ => Raised (PyException "connection refused") |}.

(** An endpoint that authenticates but fails every secret read. *)
Definition env_no_secrets (clock : nat -> Q) : Env :=
  {| time_time := clock;
     approle_login := fun _ _ _ =>
       Returned {| auth_client_token := "s.new"; auth_lease_duration := 3600 |};
     renew_self := fun _ _ => Returned {| renew_lease_duration := 3600 |};
     read_secret_version := fun _ _ _ => Raised (VaultError "invalid path");
     generate_credentials := fun _ _ _ => Raised (VaultError "invalid path");
     get_static_credentials := fun _ _ _ => Raised (PyException "connection refused") |}.

(** A client logged in at time 0 for an hour, with one entry in each cache,
    all stored at time 0; the dynamic credentials came with a lease of 20
    seconds. *)
Definition cached_client : VaultClient :=
  {| config := cfg; client_token := Some "s.old"; token := Some "s.old";
     token_issued_time := 0; token_ttl := 3600;
     kv_cache :=
       {[ "app/config" := {| kv_data := creds; kv_metadata := {| version := 1 |};
                             kv_timestamp := 0 |} ]};
     db_dynamic_cache :=
       {[ "app-role" := {| db_data := creds; db_ttl := 20; db_timestamp := 0 |} ]};
     db_static_cache :=
       {[ "static-role" := {| db_data := creds; db_ttl := 3600; db_timestamp := 0 |} ]} |}.

(** The same client with dynamic credentials leased for 60 seconds. *)
Definition leased_client : VaultClient :=
  set_db_dynamic_cache
    {[ "app-role" := {| db_data := creds; db_ttl := 60; db_timestamp := 0 |} ]}
    cached_client.

Definition start (s : VaultClient) : World :=
  {| self := s; clock_reads := 0; calls := [] |}.

End Samples.

(** ** The configuration loader ([config_loader.py]) *)

(** What [VaultConfig] reads: whether the file is there, the parsed file and
    the environment.  The parser is Python's [configparser], which is not
    part of the repository: reading the file and its three accessors are
    taken as they are, each returning a value or raising (a parsing error,
    [NoSectionError], [NoOptionError], [ValueError]). *)
Record ConfigSource : Type := {
  path_exists : bool;                                    (* os.path.exists(self.config_file) *)
  parser_read : outcome unit;                            (* self.config.read *)
  parser_get : string -> string -> outcome string;       (* self.config.get *)
  parser_getboolean : string -> string -> outcome bool;  (* self.config.getboolean *)
  parser_getint : string -> string -> outcome Z;         (* self.config.getint *)
  getenv : string -> option string                       (* os.getenv *)
}.

(** Sequencing of steps that return or raise. *)
Definition and_then {A B} (r : outcome A) (k : A -> outcome B) : outcome B :=
  match r with
  | Returned a => k a
  | Raised e => Raised e
  end.

Declare Scope outcome_scope.
Delimit Scope outcome_scope with outcome.
Notation "x <-! r ;; k" := (and_then r (fun x => k))
  (at level 100, r at next level, right associativity) : outcome_scope.
Local Open Scope outcome_scope.

(** [c.upper()] on one character of the keys the loader is called with, which
    are ASCII: a lower-case letter becomes its capital, any other byte is
    kept. *)
Definition upper_ascii (c : Ascii.ascii) : Ascii.ascii :=
  let n := Ascii.nat_of_ascii c in
  if Nat.leb 97 n && Nat.leb n 122 then Ascii.ascii_of_nat (n - 32) else c.

(** [key.upper()] *)
Fixpoint upper (key : string) : string :=
  match key with
  | EmptyString => EmptyString
  | String c rest => String (upper_ascii c) (upper rest)
  end.

(** [VaultConfig._load_config] *)
Definition _load_config (src : ConfigSource) : outcome unit :=
  if negb (path_exists src) then Raised (PyException "FileNotFoundError")
  else parser_read src.

(** [VaultConfig._get_with_env_override] *)
Definition _get_with_env_override (src : ConfigSource) (section key : string)
    : outcome string :=
  let env_key := "VAULT_" ++ upper key in
  let env_value := getenv src env_key in
  match env_value with
  | Some value => Returned value
  | None => parser_get src section key
  end.

(** [VaultConfig._get_boolean] and [VaultConfig._get_int] *)
Definition _get_boolean (src : ConfigSource) (section key : string) : outcome bool :=
  parser_getboolean src section key.

Definition _get_int (src : ConfigSource) (section key : string) : outcome Z :=
  parser_getint src section key.

(** The dictionaries of the other sections. *)
Record KvConfig : Type := {
  kv_enabled : bool;
  kv_path : string;
  refresh_interval : Z
}.

Record DbConfig : Type := {
  db_enabled : bool;
  db_role_id : string
}.

Record HttpConfig : Type := {
  timeout : Z;
  max_response_size : Z
}.

Record AllConfig : Type := {
  vault : Config;
  kv_secret : KvConfig;
  database_dynamic : DbConfig;
  database_static : DbConfig;
  http : HttpConfig
}.

(** [x or None] for a string [x] *)
Definition or_None (x : string) : option string :=
  if String.eqb x "" then None else Some x.

(** [VaultConfig.get_vault_config]: the entries of the dictionary are
    evaluated in the order they are written. *)
Definition get_vault_config (src : ConfigSource) : outcome Config :=
  e <-! _get_with_env_override src "vault" "entity" ;;
  u <-! _get_with_env_override src "vault" "url" ;;
  n <-! _get_with_env_override src "vault" "namespace" ;;
  r <-! _get_with_env_override src "vault" "role_id" ;;
  s <-! _get_with_env_override src "vault" "secret_id" ;;
  Returned {| entity := e; url := u; namespace := or_None n;
              role_id := r; secret_id := s |}.

Definition get_kv_config (src : ConfigSource) : outcome KvConfig :=
  e <-! _get_boolean src "kv_secret" "enabled" ;;
  p <-! _get_with_env_override src "kv_secret" "path" ;;
  i <-! _get_int src "kv_secret" "refresh_interval" ;;
  Returned {| kv_enabled := e; kv_path := p; refresh_interval := i |}.

Definition get_database_dynamic_config (src : ConfigSource) : outcome DbConfig :=
  e <-! _get_boolean src "database_dynamic" "enabled" ;;
  r <-! _get_with_env_override src "database_dynamic" "role_id" ;;
  Returned {| db_enabled := e; db_role_id := r |}.

Definition get_database_static_config (src : ConfigSource) : outcome DbConfig :=
  e <-! _get_boolean src "database_static" "enabled" ;;
  r <-! _get_with_env_override src "database_static" "role_id" ;;
  Returned {| db_enabled := e; db_role_id := r |}.

Definition get_http_config (src : ConfigSource) : outcome HttpConfig :=
  t <-! _get_int src "http" "timeout" ;;
  m <-! _get_int src "http" "max_response_size" ;;
  Returned {| timeout := t; max_response_size := m |}.

(** [VaultConfig.get_all_config] *)
Definition get_all_config (src : ConfigSource) : outcome AllConfig :=
  v <-! get_vault_config src ;;
  k <-! get_kv_config src ;;
  d <-! get_database_dynamic_config src ;;
  s <-! get_database_static_config src ;;
  h <-! get_http_config src ;;
  Returned {| vault := v; kv_secret := k; database_dynamic := d;
              database_static := s; http := h |}.

(** The first three statements of [VaultApplication.__init__]: the loader is
    built, everything is read and the client is created from the [vault]
    section. *)
Definition application_config (src : ConfigSource) : outcome (AllConfig * VaultClient) :=
  _ <-! _load_config src ;;
  cfg <-! get_all_config src ;;
  Returned (cfg, init (vault cfg)).

Close Scope outcome_scope.

(** ** The application around the client: [get_token_info] and the scheduler
    loops ([vault_app.py]) *)

(** Modelled from the spec: the response of the token lookup (section 6,
    [introspectSelf]); the client reads its ['data']. *)
Record LookupResponse : Type := { lookup_data : pyval }.

(** The environment with the token lookup of the endpoint: the answer to a
    lookup is a function of the number of lookups and of the other calls made
    before it. *)
Record AppEnv : Type := {
  client_env : Env;
  lookup_self : nat -> list Call -> outcome LookupResponse
}.

(** What a scheduler loop writes and how long it sleeps.  A formatted line
    keeps the formatted value between the text before and after it. *)
Inductive Output : Type :=
| Print (line : string)                                   (* print("...") *)
| PrintF (before : string) (value : pyval) (after : string) (* print(f"...{value}...") *)
| PrintJson (value : pyval)   (* print(json.dumps(value, indent=2, ensure_ascii=False)) *)
| Sleep (seconds : Z).                                    (* time.sleep(seconds) *)

(** The world of the application: the world of its client, the number of token
    lookups made and what was written (latest first). *)
Record AppWorld : Type := {
  client_world : World;
  lookups : nat;
  outputs : list Output
}.

Definition App (A : Type) : Type := AppEnv -> AppWorld -> outcome A * AppWorld.

Definition app_ret {A} (a : A) : App A := fun _ w => (Returned a, w).

Definition app_bind {A B} (m : App A) (k : A -> App B) : App B :=
  fun env w =>
    match m env w with
    | (Returned a, w') => k a env w'
    | (Raised e, w') => (Raised e, w')
    end.

Definition app_try {A} (body : App A) (handler : exn -> App A) : App A :=
  fun env w =>
    match body env w with
    | (Returned a, w') => (Returned a, w')
    | (Raised e, w') => handler e env w'
    end.

Declare Scope app_scope.
Delimit Scope app_scope with app.
Notation "x <- m ;; k" := (app_bind m (fun x => k))
  (at level 100, m at next level, right associativity) : app_scope.
Notation "m ;; k" := (app_bind m (fun _ => k))
  (at level 100, right associativity) : app_scope.
Local Open Scope app_scope.

(** A method of the client, called by the application. *)
Definition call_client {A} (m : M A) : App A :=
  fun env w =>
    let '(r, cw) := m (client_env env) (client_world w) in
    (r, {| client_world := cw; lookups := lookups w; outputs := outputs w |}).

Definition output (o : Output) : App unit :=
  fun _ w =>
    (Returned tt,
     {| client_world := client_world w; lookups := lookups w;
        outputs := o :: outputs w |}).

(** [time.sleep(seconds)], which raises [ValueError] on a negative length. *)
Definition sleep (seconds : Z) : App unit :=
  if (seconds <? 0)%Z
  then fun _ w => (Raised (PyException "ValueError"), w)
  else output (Sleep seconds).

(** [value[key]]: [KeyError] on a mapping without the key, [TypeError] on a
    value that is not a mapping. *)
Definition subscript (value : pyval) (key : string) : App pyval :=
  fun _ w =>
    (match value with
     | PyDict items =>
         match dict_get items key with
         | Some v => Returned v
         | None => Raised (PyException "KeyError")
         end
     | _ => Raised (PyException "TypeError")
     end, w).

(** [self.client.auth.token.lookup_self()] *)
Definition remote_lookup_self : App LookupResponse :=
  fun env w =>
    (lookup_self env (lookups w) (calls (client_world w)),
     {| client_world := client_world w; lookups := S (lookups w);
        outputs := outputs w |}).

(** [VaultClient.get_token_info] *)
Definition get_token_info : App pyval :=
  ok <- call_client ensure_valid_token ;;
  if negb ok then app_ret PyNone
  else
    app_try
      (response <- remote_lookup_self ;;
       app_ret (lookup_data response))
      (fun e =>
         match e with
         | VaultError _ => app_ret PyNone
         | PyException _ => app_ret PyNone
         end).

(** The line feed of ["\n..."]. *)
Definition nl : string := String (Ascii.ascii_of_nat 10) EmptyString.

(** One pass through the body of the [while self.running] loop of
    [_kv_secret_scheduler]. *)
Definition kv_secret_iteration (cfg : AllConfig) : App unit :=
  app_try
    (output (Print (nl ++ "=== KV Secret Refresh ===")) ;;
     secret_data <- call_client (get_kv_secret (kv_path (kv_secret cfg))) ;;
     (if truthy secret_data
      then
        output (Print "✅ KV 시크릿 조회 성공") ;;
        output (Print "📦 KV Secret Data:") ;;
        output (PrintJson secret_data)
      else output (Print "❌ KV 시크릿 조회 실패")) ;;
     sleep (refresh_interval (kv_secret cfg)))
    (fun e => sleep 5).

(** One pass through the loop body of [_database_dynamic_scheduler]. *)
Definition database_dynamic_iteration (cfg : AllConfig) : App unit :=
  app_try
    (output (Print (nl ++ "=== Database Dynamic Secret Refresh ===")) ;;
     secret_result <- call_client
                        (get_database_dynamic_secret (db_role_id (database_dynamic cfg))) ;;
     (if truthy secret_result
      then
        secret_data <- subscript secret_result "data" ;;
        ttl <- subscript secret_result "ttl" ;;
        output (PrintF "✅ Database Dynamic 시크릿 조회 성공 (TTL: " ttl "초)") ;;
        output (PrintF "🗄️ Database Dynamic Secret (TTL: " ttl "초):") ;;
        username <- subscript secret_data "username" ;;
        output (PrintF "  username: " username "") ;;
        password <- subscript secret_data "password" ;;
        output (PrintF "  password: " password "")
      else output (Print "❌ Database Dynamic 시크릿 조회 실패")) ;;
     sleep 5)
    (fun e => sleep 5).

(** One pass through the loop body of [_database_static_scheduler]. *)
Definition database_static_iteration (cfg : AllConfig) : App unit :=
  app_try
    (output (Print (nl ++ "=== Database Static Secret Refresh ===")) ;;
     secret_result <- call_client
                        (get_database_static_secret (db_role_id (database_static cfg))) ;;
     let secret_result := rewrap_static_result secret_result in
     (if truthy secret_result
      then
        secret_data <- subscript secret_result "data" ;;
        ttl <- subscript secret_result "ttl" ;;
        output (PrintF "✅ Database Static 시크릿 조회 성공 (TTL: " ttl "초)") ;;
        output (PrintF "🔒 Database Static Secret (TTL: " ttl "초):") ;;
        username <- subscript secret_data "username" ;;
        output (PrintF "  username: " username "") ;;
        password <- subscript secret_data "password" ;;
        output (PrintF "  password: " password "")
      else output (Print "❌ Database Static 시크릿 조회 실패")) ;;
     sleep 10)
    (fun e => sleep 10).

Close Scope app_scope.

(** The application world around a client world, with nothing written yet. *)
Definition app_start (w : World) : AppWorld :=
  {| client_world := w; lookups := 0; outputs := [] |}.

(** The sleeps among what was written. *)
Definition is_sleep (o : Output) : bool :=
  match o with
  | Sleep _ => true
  | _ => false
  end.

(** ** More sample runs *)

Module MoreSamples.

(** An endpoint whose tokens never expire on its side: the login is answered
    with a lease of 0 (as a secrets endpoint does for a root token). *)
Definition env_no_lease (clock : nat -> Q) : Env :=
  {| time_time := clock;
     approle_login := fun _ _ _ =>
       Returned {| auth_client_token := "s.root"; auth_lease_duration := 0 |};
     renew_self := fun _ _ => Returned {| renew_lease_duration := 0 |};
     read_secret_version := fun _ _ _ =>
       Returned {| resp_data := Samples.creds; resp_metadata := {| version := 1 |} |};
     generate_credentials := fun _ _ _ =>
       Returned {| dyn_data := Samples.creds; dyn_lease_duration := 8 |};
     get_static_credentials := fun _ _ _ =>
       Returned {| static_data := Samples.creds; static_ttl := Some 120%Z |} |}.

(** An endpoint whose versioned secret is the empty mapping. *)
Definition env_empty_secret (clock : nat -> Q) : Env :=
  {| time_time := clock;
     approle_login := fun _ _ _ =>
       Returned {| auth_client_token := "s.new"; auth_lease_duration := 3600 |};
     renew_self := fun _ _ => Returned {| renew_lease_duration := 3600 |};
     read_secret_version := fun _ _ _ =>
       Returned {| resp_data := PyDict []; resp_metadata := {| version := 1 |} |};
     generate_credentials := fun _ _ _ =>
       Returned {| dyn_data := PyDict [("user", PyStr "v-app")];
                   dyn_lease_duration := 60 |};
     get_static_credentials := fun _ _ _ =>
       Returned {| static_data := Samples.creds; static_ttl := None |} |}.

(** A configuration file with a role of its own in each section and an empty
    namespace, read through the parser. *)
Definition file_entries : list (string * string * string) :=
  [("vault", "entity", "my-app"); ("vault", "url", "http://127.0.0.1:8200");
   ("vault", "namespace", ""); ("vault", "role_id", "approle-role");
   ("vault", "secret_id", "secret-1"); ("kv_secret", "path", "app/config");
   ("database_dynamic", "role_id", "db-dynamic");
   ("database_static", "role_id", "db-static")].

Fixpoint file_get (entries : list (string * string * string)) (section key : string)
    : outcome string :=
  match entries with
  | [] => Raised (PyException "NoOptionError")
  | (s, k, v) :: rest =>
      if String.eqb s section && String.eqb k key then Returned v
      else file_get rest section key
  end.

Definition file_source (environ : string -> option string) : ConfigSource :=
  {| path_exists := true;
     parser_read := Returned tt;
     parser_get := file_get file_entries;
     parser_getboolean := fun _ _ => Returned true;
     parser_getint := fun _ key =>
       if String.eqb key "refresh_interval" then Returned 5%Z else Returned 30%Z;
     getenv := environ |}.

(** No file at all, and nothing to parse. *)
Definition no_file_source (environ : string -> option string) : ConfigSource :=
  {| path_exists := false;
     parser_read := Returned tt;
     parser_get := fun _ _ => Raised (PyException "NoSectionError");
     parser_getboolean := fun _ _ => Raised (PyException "NoSectionError");
     parser_getint := fun _ _ => Raised (PyException "NoSectionError");
     getenv := environ |}.

(** What [get_all_config] makes of that file, and an application around the
    sample endpoints, at clock reading 10. *)
Definition all_config : AllConfig :=
  {| vault := Samples.cfg;
     kv_secret := {| kv_enabled := true; kv_path := "app/config"; refresh_interval := 5 |};
     database_dynamic := {| db_enabled := true; db_role_id := "app-role" |};
     database_static := {| db_enabled := true; db_role_id := "static-role" |};
     http := {| timeout := 30; max_response_size := 4096 |} |}.

Definition app_env_ok : AppEnv :=
  {| client_env := Samples.env_ok (fun _ => 10%Q);
     lookup_self := fun _ _ => Returned {| lookup_data := PyDict [("ttl", PyInt 3600)] |} |}.

Definition app_env_empty : AppEnv :=
  {| client_env := env_empty_secret (fun _ => 10%Q);
     lookup_self := fun _ _ => Raised (VaultError "permission denied") |}.

(** A client whose cached static credentials carry a ['ttl'] of their own, as
    the credentials of a rotating role do. *)
Definition rotating_creds : pyval :=
  PyDict [("username", PyStr "v-app"); ("password", PyStr "pw"); ("ttl", PyInt 28)].

Definition rotating_client : VaultClient :=
  set_db_static_cache
    {[ "static-role" := {| db_data := rotating_creds; db_ttl := 3600;
                           db_timestamp := 0 |} ]}
    Samples.cached_client.

(** Environments: only [VAULT_ROLE_ID] set; the five variables of the [vault]
    section set, the namespace to the empty string. *)
Definition environ_role (name : string) : option string :=
  if String.eqb name "VAULT_ROLE_ID" then Some "env-role" else None.

Definition environ_vault (name : string) : option string :=
  if String.eqb name "VAULT_ENTITY" then Some "env-app"
  else if String.eqb name "VAULT_URL" then Some "https://vault:8200"
  else if String.eqb name "VAULT_NAMESPACE" then Some ""
  else if String.eqb name "VAULT_ROLE_ID" then Some "env-role"
  else if String.eqb name "VAULT_SECRET_ID" then Some "env-secret"
  else None.


End MoreSamples.

(** * Properties *)

(** ** Comparisons on clock values *)

Lemma Qlt_bool_iff (x y : Q) : Qlt_bool x y = true <-> (x < y)%Q.
Proof.
  unfold Qlt_bool. rewrite negb_true_iff. split.
  - intros H. apply Qnot_le_lt. intros Hle.
    apply Qle_bool_iff in Hle. congruence.
  - intros H. destruct (Qle_bool y x) eqn:E; [|reflexivity].
    apply Qle_bool_iff in E. exfalso. exact (Qlt_not_le _ _ H E).
Qed.

Lemma Qlt_bool_false_iff (x y : Q) : Qlt_bool x y = false <-> (y <= x)%Q.
Proof.
  unfold Qlt_bool. rewrite negb_false_iff. apply Qle_bool_iff.
Qed.

(** ** Runs of the token operations *)

(** [is_token_expired] reads the clock only when a token with a positive lease
    is held; it never changes the client. *)
Lemma is_token_expired_run (env : Env) (w : World) :
  is_token_expired env w =
    if negb (token_truthy (token (self w))) || (token_ttl (self w) <=? 0)%Z
    then (Returned true, w)
    else (Returned (Qle_bool (inject_Z (token_ttl (self w)) * 0.8)%Q
                      (time_time env (clock_reads w) - token_issued_time (self w))%Q),
          tick w).
Proof.
  unfold is_token_expired, bind, get_self. simpl.
  destruct (negb (token_truthy (token (self w))) || (token_ttl (self w) <=? 0)%Z);
    reflexivity.
Qed.

(** ** C2: [is_token_expired] *)

(** C2. For every token state and clock reading, [is_token_expired] returns
    (it never raises, and leaves the client as it was) and its answer is true
    if and only if no token is held, or the lease is [<= 0], or
    [elapsed = now - issued] satisfies [elapsed >= 0.8 * lease]; at exactly
    [elapsed = 0.8 * lease] the answer is true. *)
Theorem is_token_expired_iff (env : Env) (w : World) :
  let s := self w in
  let elapsed := (time_time env (clock_reads w) - token_issued_time s)%Q in
  exists (b : bool) (w' : World),
    is_token_expired env w = (Returned b, w') /\
    self w' = s /\
    (b = true <->
       ~ token_held s \/ (token_ttl s <= 0)%Z \/
       (elapsed >= 0.8 * inject_Z (token_ttl s))%Q) /\
    ((elapsed == 0.8 * inject_Z (token_ttl s))%Q -> b = true).
Proof.
  intros s elapsed. rewrite is_token_expired_run. fold s. unfold token_held.
  destruct (token_truthy (token s)) eqn:Ht; simpl.
  - destruct (token_ttl s <=? 0)%Z eqn:Hl.
    + exists true, w. apply Z.leb_le in Hl. repeat split; auto.
    + apply Z.leb_gt in Hl.
      eexists _, (tick w). split; [reflexivity|]. split; [reflexivity|].
      fold elapsed. rewrite Qle_bool_iff, (Qmult_comm (inject_Z _)).
      split.
      * split; [auto|]. intros [H|[H|H]]; [congruence|lia|exact H].
      * intros H. rewrite H. apply Qle_refl.
  - exists true, w. repeat split; auto; left; congruence.
Qed.

(** A token issued at 0 with a lease of 100 seconds, read at 80: expired. *)
Lemma is_token_expired_iff_witness :
  fst (is_token_expired (Samples.env_ok (fun _ => 80%Q))
         (Samples.start Samples.logged_in))
  = Returned true.
Proof.
  destruct (is_token_expired_iff (Samples.env_ok (fun _ => 80%Q))
              (Samples.start Samples.logged_in)) as (b & w' & E & _ & _ & Hb).
  rewrite E. simpl. f_equal. apply Hb. reflexivity.
Defined.

(** ** Runs of [login], [renew_token] and [ensure_valid_token] *)

Lemma login_run (env : Env) (w : World) :
  login env w =
    match approle_login env (calls w) (role_id (config (self w)))
            (secret_id (config (self w))) with
    | Returned response =>
        (Returned true,
         with_self (after_login response (time_time env (clock_reads w)) (self w))
           (tick (logged (login_call (self w)) w)))
    | Raised _ => (Returned false, logged (login_call (self w)) w)
    end.
Proof.
  unfold login, try_except, bind, remote, get_self. simpl.
  destruct (approle_login env (calls w) _ _) as [response|[msg|msg]]; reflexivity.
Qed.

Lemma renew_token_run (env : Env) (w : World) :
  renew_token env w =
    match renew_self env (calls w) (client_token (self w)) with
    | Returned response =>
        (Returned true,
         with_self (after_renew response (time_time env (clock_reads w)) (self w))
           (tick (logged (renew_call (self w)) w)))
    | Raised _ => (Returned false, logged (renew_call (self w)) w)
    end.
Proof.
  unfold renew_token, try_except, bind, remote, get_self. simpl.
  destruct (renew_self env (calls w) _) as [response|[msg|msg]]; reflexivity.
Qed.

(** The first test of [ensure_valid_token] is [is_token_expired] also when no
    token is held: then [is_token_expired] answers true without reading the
    clock, as the short-circuit [or] does. *)
Lemma ensure_valid_token_run (env : Env) (w : World) :
  ensure_valid_token env w =
    match is_token_expired env w with
    | (Returned true, w1) => login env w1
    | (Returned false, w1) =>
        match is_token_expired env w1 with
        | (Returned true, w2) => renew_token env w2
        | (Returned false, w2) => (Returned true, w2)
        | (Raised e, w2) => (Raised e, w2)
        end
    | (Raised e, w1) => (Raised e, w1)
    end.
Proof.
  unfold ensure_valid_token, bind at 1 2. unfold get_self at 1.
  destruct (token_truthy (token (self w))) eqn:Ht; simpl.
  - destruct (is_token_expired env w) as [[[|]|e] w1]; [reflexivity| |reflexivity].
    unfold bind. destruct (is_token_expired env w1) as [[[|]|e] w2]; reflexivity.
  - rewrite is_token_expired_run, Ht. reflexivity.
Qed.

Lemma is_token_expired_total (env : Env) (w : World) :
  exists (b : bool) (w' : World),
    is_token_expired env w = (Returned b, w') /\
    self w' = self w /\ calls w' = calls w.
Proof.
  rewrite is_token_expired_run.
  destruct (negb (token_truthy (token (self w))) || (token_ttl (self w) <=? 0)%Z);
    eexists _, _; repeat split; reflexivity.
Qed.

(** ** C7: a failed [login] or [renew_token] leaves the token as it was *)

(** C7. For every token state: [login] returns (it never raises); when it
    returns failure the client, hence the token, its issue time and its lease,
    is left as it was, and it returns failure whenever the remote call raises.
    The same holds of [renew_token]. *)
Theorem login_renew_failure_keeps_token (env : Env) (w : World) :
  (exists (ok : bool) (w' : World),
     login env w = (Returned ok, w') /\
     (ok = false ->
        self w' = self w /\ token_state (self w') = token_state (self w)) /\
     (forall e,
        approle_login env (calls w) (role_id (config (self w)))
          (secret_id (config (self w))) = Raised e ->
        ok = false)) /\
  (exists (ok : bool) (w' : World),
     renew_token env w = (Returned ok, w') /\
     (ok = false ->
        self w' = self w /\ token_state (self w') = token_state (self w)) /\
     (forall e,
        renew_self env (calls w) (client_token (self w)) = Raised e -> ok = false)).
Proof.
  split.
  - rewrite login_run.
    destruct (approle_login env (calls w) _ _) as [response|e0];
      eexists _, _; (split; [reflexivity|]); split.
    + discriminate.
    + intros e He. discriminate He.
    + intros _. split; reflexivity.
    + reflexivity.
  - rewrite renew_token_run.
    destruct (renew_self env (calls w) _) as [response|e0];
      eexists _, _; (split; [reflexivity|]); split.
    + discriminate.
    + intros e He. discriminate He.
    + intros _. split; reflexivity.
    + reflexivity.
Qed.

(** On an endpoint that rejects every call, a client holding ["s.old"] keeps
    it through a failed login and a failed renewal. *)
Lemma login_renew_failure_keeps_token_witness :
  token_state (self (snd (login (Samples.env_down (fun _ => 90%Q))
                            (Samples.start Samples.logged_in))))
  = (Some "s.old", 0%Q, 100%Z) /\
  token_state (self (snd (renew_token (Samples.env_down (fun _ => 90%Q))
                            (Samples.start Samples.logged_in))))
  = (Some "s.old", 0%Q, 100%Z).
Proof.
  destruct (login_renew_failure_keeps_token (Samples.env_down (fun _ => 90%Q))
              (Samples.start Samples.logged_in))
    as [(ok & w' & E & Hkeep & Hfail) (ok2 & w2 & E2 & Hkeep2 & Hfail2)].
  split.
  - rewrite E. simpl.
    destruct (Hkeep (Hfail (VaultError "permission denied") eq_refl)) as [_ ->].
    reflexivity.
  - rewrite E2. simpl.
    destruct (Hkeep2 (Hfail2 (VaultError "permission denied") eq_refl)) as [_ ->].
    reflexivity.
Defined.

(** ** C1 and C8: the branches of [ensure_valid_token] *)

(** C1. The code at a held but expired token (lease 100, issued at 0, clock
    at 81): [ensure_valid_token] makes the AppRole login call and no renewal
    call, and the token value is replaced. *)
Theorem ensure_valid_token_expired_logs_in :
  token_held Samples.logged_in /\
  fst (is_token_expired (Samples.env_ok (fun _ => 81%Q)) (Samples.start Samples.logged_in))
    = Returned true /\
  calls (snd (ensure_valid_token (Samples.env_ok (fun _ => 81%Q))
                (Samples.start Samples.logged_in)))
    = [AppRoleLogin "role-1" "secret-1"] /\
  renew_count (calls (snd (ensure_valid_token (Samples.env_ok (fun _ => 81%Q))
                             (Samples.start Samples.logged_in)))) = 0%nat /\
  token (self (snd (ensure_valid_token (Samples.env_ok (fun _ => 81%Q))
                      (Samples.start Samples.logged_in)))) = Some "s.new".
Proof. repeat split; vm_compute; reflexivity. Qed.

(** C8, as stated, fails: with the clock at 79 for the first reading and at 80
    for the second, the first [is_token_expired] is false, the second is true,
    and [ensure_valid_token] makes the renewal call. *)
Lemma ensure_valid_token_can_renew :
  token_held Samples.logged_in /\
  fst (is_token_expired
         (Samples.env_ok (fun n => match n with O => 79%Q | S _ => 80%Q end))
         (Samples.start Samples.logged_in)) = Returned false /\
  calls (snd (ensure_valid_token
                (Samples.env_ok (fun n => match n with O => 79%Q | S _ => 80%Q end))
                (Samples.start Samples.logged_in)))
    = [RenewSelf (Some "s.old")] /\
  ensure_valid_token
    (Samples.env_ok (fun n => match n with O => 79%Q | S _ => 80%Q end))
    (Samples.start Samples.logged_in)
  = renew_token
      (Samples.env_ok (fun n => match n with O => 79%Q | S _ => 80%Q end))
      (tick (tick (Samples.start Samples.logged_in))).
Proof. repeat split; vm_compute; reflexivity. Qed.

Lemma login_calls (env : Env) (w : World) :
  calls (snd (login env w)) = login_call (self w) :: calls w.
Proof.
  rewrite login_run. destruct (approle_login env (calls w) _ _); reflexivity.
Qed.

Lemma Qle_bool_compat_r (a x y : Q) : (x == y)%Q -> Qle_bool a x = Qle_bool a y.
Proof.
  intros Hxy. destruct (Qle_bool a y) eqn:E.
  - apply Qle_bool_iff. apply Qle_bool_iff in E. rewrite Hxy. exact E.
  - destruct (Qle_bool a x) eqn:E'; [|reflexivity].
    apply Qle_bool_iff in E'. rewrite Hxy in E'. apply Qle_bool_iff in E'. congruence.
Qed.

(** C8, amended. [ensure_valid_token] evaluates [is_token_expired] once (a
    missing token counts as expired) and, when that is true, returns the result
    of [login] without a renewal call.  When it is false, it evaluates
    [is_token_expired] again, on the next reading of the clock: if that is false
    too it returns true without any remote call; if it is true it returns the
    result of [renew_token].  The second answer is false whenever the clock has
    not moved between the two readings. *)
Theorem ensure_valid_token_branches (env : Env) (w : World) :
  exists (e1 : bool) (w1 : World),
    is_token_expired env w = (Returned e1, w1) /\
    (~ token_held (self w) -> e1 = true) /\
    (e1 = true ->
       ensure_valid_token env w = login env w1 /\
       renew_count (calls (snd (ensure_valid_token env w))) = renew_count (calls w)) /\
    (e1 = false ->
       exists (e2 : bool) (w2 : World),
         is_token_expired env w1 = (Returned e2, w2) /\
         (e2 = false ->
            ensure_valid_token env w = (Returned true, w2) /\ calls w2 = calls w) /\
         (e2 = true -> ensure_valid_token env w = renew_token env w2) /\
         ((time_time env (clock_reads w) == time_time env (S (clock_reads w)))%Q ->
            e2 = false)).
Proof.
  rewrite ensure_valid_token_run.
  rewrite (is_token_expired_run env w). unfold token_held.
  destruct (token_truthy (token (self w))) eqn:Ht; simpl.
  2:{ exists true, w. split; [reflexivity|]. split; [reflexivity|]. split.
      - intros _. split; [reflexivity|]. rewrite login_calls. reflexivity.
      - discriminate. }
  destruct (token_ttl (self w) <=? 0)%Z eqn:Hl.
  { exists true, w. split; [reflexivity|]. split; [reflexivity|]. split.
    - intros _. split; [reflexivity|]. rewrite login_calls. reflexivity.
    - discriminate. }
  destruct (Qle_bool _ _) eqn:E1.
  { exists true, (tick w). split; [reflexivity|]. split; [congruence|]. split.
    - intros _. split; [reflexivity|]. rewrite login_calls. reflexivity.
    - discriminate. }
  exists false, (tick w). split; [reflexivity|]. split; [congruence|].
  split; [discriminate|]. intros _.
  rewrite (is_token_expired_run env (tick w)). simpl. rewrite Ht, Hl. simpl.
  eexists _, (tick (tick w)). split; [reflexivity|].
  split; [|split].
  - intros ->. split; reflexivity.
  - intros ->. reflexivity.
  - intros Heq. rewrite <- E1. apply Qle_bool_compat_r. rewrite Heq. reflexivity.
Qed.

(** With the clock standing at 50, a client whose token was issued at 0 for
    100 seconds is answered true without any remote call. *)
Lemma ensure_valid_token_branches_witness :
  ensure_valid_token (Samples.env_ok (fun _ => 50%Q)) (Samples.start Samples.logged_in)
  = (Returned true, tick (tick (Samples.start Samples.logged_in))).
Proof.
  destruct (ensure_valid_token_branches (Samples.env_ok (fun _ => 50%Q))
              (Samples.start Samples.logged_in))
    as (e1 & w1 & E1 & _ & _ & Hfresh).
  injection E1 as <- <-.
  destruct (Hfresh eq_refl) as (e2 & w2 & E2 & Hno & _ & Hsame).
  injection E2 as _ <-.
  destruct (Hno (Hsame (Qeq_refl _))) as [-> _]. reflexivity.
Defined.

(** ** Runs of the get-secret operations *)

(** [ensure_valid_token] always returns; it touches neither the caches nor the
    configuration, and makes no secret read. *)
Lemma ensure_valid_token_total (env : Env) (w : World) :
  exists (ok : bool) (w1 : World),
    ensure_valid_token env w = (Returned ok, w1) /\
    caches (self w1) = caches (self w) /\
    config (self w1) = config (self w) /\
    fetch_count (calls w1) = fetch_count (calls w).
Proof.
  rewrite ensure_valid_token_run.
  destruct (is_token_expired_total env w) as (e1 & w1 & -> & Hs1 & Hc1).
  destruct e1.
  - rewrite login_run. destruct (approle_login env (calls w1) _ _);
      eexists _, _; (split; [reflexivity|]); simpl;
      rewrite ?Hs1, ?Hc1; repeat split; reflexivity.
  - destruct (is_token_expired_total env w1) as (e2 & w2 & -> & Hs2 & Hc2).
    destruct e2.
    + rewrite renew_token_run. destruct (renew_self env (calls w2) _);
        eexists _, _; (split; [reflexivity|]); simpl;
        rewrite ?Hs2, ?Hc2, ?Hs1, ?Hc1; repeat split; reflexivity.
    + eexists _, _. split; [reflexivity|].
      rewrite Hs2, Hc2, Hs1, Hc1. repeat split; reflexivity.
Qed.

Ltac run_get_secret answer :=
  unfold bind at 1;
  match goal with
  | |- context [ensure_valid_token ?env ?w] =>
      destruct (ensure_valid_token env w) as [[[|]|e] w1]
  end; simpl; try reflexivity;
  unfold try_except, bind at 1; unfold get_self at 1; simpl;
  match goal with
  | |- context [?cache !! ?key] => destruct (cache !! key) as [cached|]
  end; simpl;
  [ unfold bind at 1; unfold now at 1; simpl;
    match goal with
    | |- context [Qlt_bool ?a ?b] => destruct (Qlt_bool a b)
    end; simpl; [reflexivity|]
  | ];
  unfold bind, remote, get_self, now, assign, set_self, ret; simpl;
  match goal with
  | |- context [answer ?env ?h ?k ?m] => destruct (answer env h k m) as [response|[msg|msg]]
  end; reflexivity.

Lemma get_kv_secret_run (path : string) (env : Env) (w : World) :
  get_kv_secret path env w =
    match ensure_valid_token env w with
    | (Returned true, w1) =>
        match kv_cache (self w1) !! path with
        | Some cached =>
            if Qlt_bool (time_time env (clock_reads w1) - kv_timestamp cached)%Q 300%Q
            then (Returned (kv_data cached), tick w1)
            else kv_fetch_outcome path env (tick w1)
        | None => kv_fetch_outcome path env w1
        end
    | (Returned false, w1) => (Returned PyNone, w1)
    | (Raised e, w1) => (Raised e, w1)
    end.
Proof.
  unfold get_kv_secret, fetch_kv_secret, kv_fetch_outcome.
  run_get_secret read_secret_version.
Qed.

Lemma get_database_dynamic_secret_run (role : string) (env : Env) (w : World) :
  get_database_dynamic_secret role env w =
    match ensure_valid_token env w with
    | (Returned true, w1) =>
        match db_dynamic_cache (self w1) !! role with
        | Some cached =>
            let remaining_ttl :=
              (inject_Z (db_ttl cached)
               - (time_time env (clock_reads w1) - db_timestamp cached))%Q in
            if Qlt_bool 10%Q remaining_ttl
            then (Returned (wrapper (db_data cached) (py_int remaining_ttl)), tick w1)
            else dynamic_fetch_outcome role env (tick w1)
        | None => dynamic_fetch_outcome role env w1
        end
    | (Returned false, w1) => (Returned PyNone, w1)
    | (Raised e, w1) => (Raised e, w1)
    end.
Proof.
  unfold get_database_dynamic_secret, fetch_database_dynamic_secret,
    dynamic_fetch_outcome.
  run_get_secret generate_credentials.
Qed.

Lemma get_database_static_secret_run (role : string) (env : Env) (w : World) :
  get_database_static_secret role env w =
    match ensure_valid_token env w with
    | (Returned true, w1) =>
        match db_static_cache (self w1) !! role with
        | Some cached =>
            if Qlt_bool (time_time env (clock_reads w1) - db_timestamp cached)%Q 300%Q
            then (Returned (db_data cached), tick w1)
            else static_fetch_outcome role env (tick w1)
        | None => static_fetch_outcome role env w1
        end
    | (Returned false, w1) => (Returned PyNone, w1)
    | (Raised e, w1) => (Raised e, w1)
    end.
Proof.
  unfold get_database_static_secret, fetch_database_static_secret,
    static_fetch_outcome.
  run_get_secret get_static_credentials.
Qed.

(** The caches seen by the lookup are those the operation started with. *)
Lemma ensure_valid_token_keeps (env : Env) (w w1 : World) (ok : bool) :
  ensure_valid_token env w = (Returned ok, w1) ->
  kv_cache (self w1) = kv_cache (self w) /\
  db_dynamic_cache (self w1) = db_dynamic_cache (self w) /\
  db_static_cache (self w1) = db_static_cache (self w) /\
  config (self w1) = config (self w) /\
  fetch_count (calls w1) = fetch_count (calls w).
Proof.
  intros E.
  destruct (ensure_valid_token_total env w) as (ok' & w1' & E' & Hc & Hcfg & Hf).
  rewrite E in E'. injection E' as <- <-.
  unfold caches in Hc. injection Hc as -> -> ->. auto.
Qed.

Lemma cons_neq {A : Type} (x : A) (l : list A) : x :: l <> l.
Proof.
  intros H. apply (f_equal (@length A)) in H. simpl in H. lia.
Qed.

(** ** Truncation *)

Lemma py_int_floor (x : Q) : (0 <= x)%Q -> py_int x = Qfloor x.
Proof.
  destruct x as [n d]. unfold Qle, py_int, Qfloor. simpl. intros H.
  apply Z.quot_div_nonneg; lia.
Qed.

Lemma py_int_bounds (x : Q) :
  (0 <= x)%Q -> (inject_Z (py_int x) <= x)%Q /\ (x < inject_Z (py_int x) + 1)%Q.
Proof.
  intros H. rewrite (py_int_floor x H). split.
  - apply Qfloor_le.
  - change 1%Q with (inject_Z 1). rewrite <- inject_Z_plus. apply Qlt_floor.
Qed.

(** ** The cases of a get-secret operation *)

Ltac by_run run E :=
  rewrite run, E;
  destruct (ensure_valid_token_keeps _ _ _ _ E) as (Hkv & Hdyn & Hst & Hcfg & Hfc);
  rewrite ?Hkv, ?Hdyn, ?Hst.

Section Cases.
Variables (env : Env) (w w1 : World) (key : string).

Lemma kv_denied :
  ensure_valid_token env w = (Returned false, w1) ->
  get_kv_secret key env w = (Returned PyNone, w1).
Proof. intros E. rewrite get_kv_secret_run, E. reflexivity. Qed.

Lemma dynamic_denied :
  ensure_valid_token env w = (Returned false, w1) ->
  get_database_dynamic_secret key env w = (Returned PyNone, w1).
Proof. intros E. rewrite get_database_dynamic_secret_run, E. reflexivity. Qed.

Lemma static_denied :
  ensure_valid_token env w = (Returned false, w1) ->
  get_database_static_secret key env w = (Returned PyNone, w1).
Proof. intros E. rewrite get_database_static_secret_run, E. reflexivity. Qed.

Hypothesis token_ok : ensure_valid_token env w = (Returned true, w1).

Lemma kv_hit (cached : KvEntry) :
  kv_cache (self w) !! key = Some cached ->
  spec_time_window_fresh (time_time env (clock_reads w1)) (kv_timestamp cached) ->
  get_kv_secret key env w = (Returned (kv_data cached), tick w1).
Proof.
  intros Hl Hf. by_run get_kv_secret_run token_ok. rewrite Hl.
  apply Qlt_bool_iff in Hf. rewrite Hf. reflexivity.
Qed.

Lemma kv_stale (cached : KvEntry) :
  kv_cache (self w) !! key = Some cached ->
  ~ spec_time_window_fresh (time_time env (clock_reads w1)) (kv_timestamp cached) ->
  get_kv_secret key env w = kv_fetch_outcome key env (tick w1).
Proof.
  intros Hl Hf. by_run get_kv_secret_run token_ok. rewrite Hl.
  destruct (Qlt_bool _ _) eqn:Hq; [|reflexivity].
  apply Qlt_bool_iff in Hq. contradiction.
Qed.

Lemma kv_missing :
  kv_cache (self w) !! key = None ->
  get_kv_secret key env w = kv_fetch_outcome key env w1.
Proof. intros Hl. by_run get_kv_secret_run token_ok. rewrite Hl. reflexivity. Qed.

Lemma dynamic_hit (cached : DbEntry) :
  db_dynamic_cache (self w) !! key = Some cached ->
  spec_lease_fresh (time_time env (clock_reads w1)) cached ->
  get_database_dynamic_secret key env w =
    (Returned (wrapper (db_data cached)
                 (py_int (spec_remaining_lease (time_time env (clock_reads w1)) cached))),
     tick w1).
Proof.
  intros Hl Hf. by_run get_database_dynamic_secret_run token_ok. rewrite Hl.
  apply Qlt_bool_iff in Hf. simpl. unfold spec_remaining_lease in Hf.
  rewrite Hf. reflexivity.
Qed.

Lemma dynamic_stale (cached : DbEntry) :
  db_dynamic_cache (self w) !! key = Some cached ->
  ~ spec_lease_fresh (time_time env (clock_reads w1)) cached ->
  get_database_dynamic_secret key env w = dynamic_fetch_outcome key env (tick w1).
Proof.
  intros Hl Hf. by_run get_database_dynamic_secret_run token_ok. rewrite Hl. simpl.
  destruct (Qlt_bool _ _) eqn:Hq; [|reflexivity].
  apply Qlt_bool_iff in Hq. contradiction.
Qed.

Lemma dynamic_missing :
  db_dynamic_cache (self w) !! key = None ->
  get_database_dynamic_secret key env w = dynamic_fetch_outcome key env w1.
Proof.
  intros Hl. by_run get_database_dynamic_secret_run token_ok. rewrite Hl. reflexivity.
Qed.

Lemma static_hit (cached : DbEntry) :
  db_static_cache (self w) !! key = Some cached ->
  spec_time_window_fresh (time_time env (clock_reads w1)) (db_timestamp cached) ->
  get_database_static_secret key env w = (Returned (db_data cached), tick w1).
Proof.
  intros Hl Hf. by_run get_database_static_secret_run token_ok. rewrite Hl.
  apply Qlt_bool_iff in Hf. rewrite Hf. reflexivity.
Qed.

Lemma static_stale (cached : DbEntry) :
  db_static_cache (self w) !! key = Some cached ->
  ~ spec_time_window_fresh (time_time env (clock_reads w1)) (db_timestamp cached) ->
  get_database_static_secret key env w = static_fetch_outcome key env (tick w1).
Proof.
  intros Hl Hf. by_run get_database_static_secret_run token_ok. rewrite Hl.
  destruct (Qlt_bool _ _) eqn:Hq; [|reflexivity].
  apply Qlt_bool_iff in Hq. contradiction.
Qed.

Lemma static_missing :
  db_static_cache (self w) !! key = None ->
  get_database_static_secret key env w = static_fetch_outcome key env w1.
Proof.
  intros Hl. by_run get_database_static_secret_run token_ok. rewrite Hl. reflexivity.
Qed.

End Cases.

(** A remote read logs exactly its own call. *)
Lemma kv_fetch_outcome_calls (key : string) (env : Env) (w : World) :
  calls (snd (kv_fetch_outcome key env w)) = kv_call (self w) key :: calls w.
Proof.
  unfold kv_fetch_outcome. destruct (read_secret_version env _ _ _); reflexivity.
Qed.

Lemma dynamic_fetch_outcome_calls (key : string) (env : Env) (w : World) :
  calls (snd (dynamic_fetch_outcome key env w)) = dynamic_call (self w) key :: calls w.
Proof.
  unfold dynamic_fetch_outcome. destruct (generate_credentials env _ _ _); reflexivity.
Qed.

Lemma static_fetch_outcome_calls (key : string) (env : Env) (w : World) :
  calls (snd (static_fetch_outcome key env w)) = static_call (self w) key :: calls w.
Proof.
  unfold static_fetch_outcome. destruct (get_static_credentials env _ _ _); reflexivity.
Qed.

(** ** C4: the time-window rule of the KV and static-database caches *)

(** C4. Once the token is ensured, an entry found in the KV cache, or in the
    static-database cache, is answered from the cache (the stored data
    returned, nothing but the clock touched) if and only if
    [now - stored_at < 300], [now] being the clock reading of the check;
    otherwise, and so at exactly [now - stored_at = 300], the remote read is
    made. *)
Theorem time_window_fresh_iff (env : Env) (w w1 : World) (key : string) :
  ensure_valid_token env w = (Returned true, w1) ->
  let now := time_time env (clock_reads w1) in
  (forall cached : KvEntry,
     kv_cache (self w) !! key = Some cached ->
     (spec_time_window_fresh now (kv_timestamp cached) <->
        get_kv_secret key env w = (Returned (kv_data cached), tick w1)) /\
     (~ spec_time_window_fresh now (kv_timestamp cached) ->
        calls (snd (get_kv_secret key env w)) = kv_call (self w1) key :: calls w1) /\
     ((now - kv_timestamp cached == 300)%Q ->
        calls (snd (get_kv_secret key env w)) = kv_call (self w1) key :: calls w1)) /\
  (forall cached : DbEntry,
     db_static_cache (self w) !! key = Some cached ->
     (spec_time_window_fresh now (db_timestamp cached) <->
        get_database_static_secret key env w = (Returned (db_data cached), tick w1)) /\
     (~ spec_time_window_fresh now (db_timestamp cached) ->
        calls (snd (get_database_static_secret key env w))
        = static_call (self w1) key :: calls w1) /\
     ((now - db_timestamp cached == 300)%Q ->
        calls (snd (get_database_static_secret key env w))
        = static_call (self w1) key :: calls w1)).
Proof.
  intros E now. split; intros cached Hl.
  - assert (Hstale : ~ spec_time_window_fresh now (kv_timestamp cached) ->
              calls (snd (get_kv_secret key env w)) = kv_call (self w1) key :: calls w1).
    { intros Hs. rewrite (kv_stale env w w1 key E cached Hl Hs).
      rewrite kv_fetch_outcome_calls. reflexivity. }
    split; [split|split].
    + apply kv_hit; assumption.
    + intros Hget.
      destruct (Qlt_le_dec (now - kv_timestamp cached) 300) as [Hlt|Hge]; [exact Hlt|].
      exfalso. assert (Hs : ~ spec_time_window_fresh now (kv_timestamp cached)).
      { intros Hlt. exact (Qlt_not_le _ _ Hlt Hge). }
      specialize (Hstale Hs). rewrite Hget in Hstale. simpl in Hstale.
      symmetry in Hstale. exact (cons_neq _ _ Hstale).
    + exact Hstale.
    + intros Heq. apply Hstale. unfold spec_time_window_fresh. rewrite Heq.
      apply Qlt_irrefl.
  - assert (Hstale : ~ spec_time_window_fresh now (db_timestamp cached) ->
              calls (snd (get_database_static_secret key env w))
              = static_call (self w1) key :: calls w1).
    { intros Hs. rewrite (static_stale env w w1 key E cached Hl Hs).
      rewrite static_fetch_outcome_calls. reflexivity. }
    split; [split|split].
    + apply static_hit; assumption.
    + intros Hget.
      destruct (Qlt_le_dec (now - db_timestamp cached) 300) as [Hlt|Hge]; [exact Hlt|].
      exfalso. assert (Hs : ~ spec_time_window_fresh now (db_timestamp cached)).
      { intros Hlt. exact (Qlt_not_le _ _ Hlt Hge). }
      specialize (Hstale Hs). rewrite Hget in Hstale. simpl in Hstale.
      symmetry in Hstale. exact (cons_neq _ _ Hstale).
    + exact Hstale.
    + intros Heq. apply Hstale. unfold spec_time_window_fresh. rewrite Heq.
      apply Qlt_irrefl.
Qed.

(** A KV entry stored at 0 and looked up with the clock at exactly 300 is
    stale: the remote read is made. *)
Lemma time_window_fresh_iff_witness :
  calls (snd (get_kv_secret "app/config" (Samples.env_ok (fun _ => 300%Q))
                (Samples.start Samples.cached_client)))
  = [ReadSecretVersion "app/config" "my-app-kv"].
Proof.
  destruct (time_window_fresh_iff (Samples.env_ok (fun _ => 300%Q))
              (Samples.start Samples.cached_client)
              (tick (tick (Samples.start Samples.cached_client)))
              "app/config" eq_refl) as [Hkv _].
  destruct (Hkv {| kv_data := Samples.creds; kv_metadata := {| version := 1 |};
                   kv_timestamp := 0 |} eq_refl) as (_ & _ & Hexact).
  apply Hexact. reflexivity.
Defined.

(** ** C3: the lease rule of the dynamic-database cache *)

(** C3. Once the token is ensured, an entry found in the dynamic-database cache
    is answered from the cache if and only if
    [remaining = lease - (now - stored_at) > 10], [now] being the clock reading
    of the check; the answer then carries [remaining] truncated to an integer,
    which lies within one second below [remaining] and is smaller than the
    stored lease as soon as a second has passed.  Otherwise the remote call is
    made. *)
Theorem lease_fresh_iff (env : Env) (w w1 : World) (role : string) (cached : DbEntry) :
  ensure_valid_token env w = (Returned true, w1) ->
  db_dynamic_cache (self w) !! role = Some cached ->
  let now := time_time env (clock_reads w1) in
  let remaining := (inject_Z (db_ttl cached) - (now - db_timestamp cached))%Q in
  ((remaining > 10)%Q <->
     get_database_dynamic_secret role env w =
       (Returned (PyDict [("data", db_data cached); ("ttl", PyInt (py_int remaining))]),
        tick w1)) /\
  (~ (remaining > 10)%Q ->
     calls (snd (get_database_dynamic_secret role env w))
     = dynamic_call (self w1) role :: calls w1) /\
  ((remaining > 10)%Q ->
     (inject_Z (py_int remaining) <= remaining)%Q /\
     (remaining < inject_Z (py_int remaining) + 1)%Q) /\
  ((remaining > 10)%Q -> (1 <= now - db_timestamp cached)%Q ->
     (py_int remaining < db_ttl cached)%Z).
Proof.
  intros E Hl now remaining.
  change remaining with (spec_remaining_lease now cached).
  change (spec_remaining_lease now cached > 10)%Q with (spec_lease_fresh now cached).
  assert (Hstale : ~ spec_lease_fresh now cached ->
            calls (snd (get_database_dynamic_secret role env w))
            = dynamic_call (self w1) role :: calls w1).
  { intros Hs. rewrite (dynamic_stale env w w1 role E cached Hl Hs).
    rewrite dynamic_fetch_outcome_calls. reflexivity. }
  assert (Hpos : spec_lease_fresh now cached -> (0 <= spec_remaining_lease now cached)%Q).
  { intros Hf. apply Qlt_le_weak. apply Qlt_trans with 10%Q; [reflexivity|exact Hf]. }
  split; [split|split; [|split]].
  - apply dynamic_hit; assumption.
  - intros Hget.
    destruct (Qlt_le_dec 10 (spec_remaining_lease now cached)) as [Hlt|Hge]; [exact Hlt|].
    exfalso. assert (Hs : ~ spec_lease_fresh now cached).
    { intros Hlt. exact (Qlt_not_le _ _ Hlt Hge). }
    specialize (Hstale Hs). rewrite Hget in Hstale. simpl in Hstale.
    symmetry in Hstale. exact (cons_neq _ _ Hstale).
  - exact Hstale.
  - intros Hf. apply py_int_bounds. auto.
  - intros Hf Hsec. destruct (py_int_bounds _ (Hpos Hf)) as [Hlo _].
    assert (Hle : (spec_remaining_lease now cached <= inject_Z (db_ttl cached - 1))%Q).
    { unfold spec_remaining_lease. unfold Z.sub.
      rewrite inject_Z_plus, inject_Z_opp.
      apply Qplus_le_r. apply Qopp_le_compat. exact Hsec. }
    pose proof (Qle_trans _ _ _ Hlo Hle) as Hz. rewrite <- Zle_Qle in Hz. lia.
Qed.

(** Dynamic credentials with a lease of 60 seconds, stored at 0 and looked up
    with the clock at 12.5: 47.5 seconds remain and 47 is answered. *)
Lemma lease_fresh_iff_witness :
  get_database_dynamic_secret "app-role" (Samples.env_ok (fun _ => 12.5%Q))
    (Samples.start Samples.leased_client)
  = (Returned (PyDict [("data", Samples.creds); ("ttl", PyInt 47)]),
     tick (tick (tick (Samples.start Samples.leased_client)))).
Proof.
  destruct (lease_fresh_iff (Samples.env_ok (fun _ => 12.5%Q))
              (Samples.start Samples.leased_client)
              (tick (tick (Samples.start Samples.leased_client)))
              "app-role"
              {| db_data := Samples.creds; db_ttl := 60; db_timestamp := 0 |}
              eq_refl eq_refl) as [[Hhit _] _].
  apply Hhit. reflexivity.
Defined.

(** ** Usable and unusable entries *)

Section Usable.
Variables (env : Env) (w w1 : World) (key : string).
Hypothesis token_ok : ensure_valid_token env w = (Returned true, w1).


Lemma kv_unusable_fetch :
  ~ kv_usable (self w) key (time_time env (clock_reads w1)) ->
  exists w2, (w2 = w1 \/ w2 = tick w1) /\
             get_kv_secret key env w = kv_fetch_outcome key env w2.
Proof.
  intros Hn. destruct (kv_cache (self w) !! key) as [cached|] eqn:Hl.
  - exists (tick w1). split; [right; reflexivity|].
    apply (kv_stale env w w1 key token_ok cached Hl).
    intros Hf. apply Hn. exists cached. split; assumption.
  - exists w1. split; [left; reflexivity|]. apply kv_missing; assumption.
Qed.


Lemma dynamic_unusable_fetch :
  ~ dynamic_usable (self w) key (time_time env (clock_reads w1)) ->
  exists w2, (w2 = w1 \/ w2 = tick w1) /\
             get_database_dynamic_secret key env w = dynamic_fetch_outcome key env w2.
Proof.
  intros Hn. destruct (db_dynamic_cache (self w) !! key) as [cached|] eqn:Hl.
  - exists (tick w1). split; [right; reflexivity|].
    apply (dynamic_stale env w w1 key token_ok cached Hl).
    intros Hf. apply Hn. exists cached. split; assumption.
  - exists w1. split; [left; reflexivity|]. apply dynamic_missing; assumption.
Qed.


Lemma static_unusable_fetch :
  ~ static_usable (self w) key (time_time env (clock_reads w1)) ->
  exists w2, (w2 = w1 \/ w2 = tick w1) /\
             get_database_static_secret key env w = static_fetch_outcome key env w2.
Proof.
  intros Hn. destruct (db_static_cache (self w) !! key) as [cached|] eqn:Hl.
  - exists (tick w1). split; [right; reflexivity|].
    apply (static_stale env w w1 key token_ok cached Hl).
    intros Hf. apply Hn. exists cached. split; assumption.
  - exists w1. split; [left; reflexivity|]. apply static_missing; assumption.
Qed.

End Usable.


(** ** C5: remote reads and cache stores of a get-secret operation *)





(** ** C6: remote failures are absorbed *)

Ltac returns_by run :=
  let ok := fresh "ok" in
  let w1 := fresh "w1" in
  let E := fresh "E" in
  match goal with
  | |- context [?get ?key ?env ?w] =>
      destruct (ensure_valid_token_total env w) as (ok & w1 & E & _)
  end;
  rewrite run, E;
  unfold kv_fetch_outcome, dynamic_fetch_outcome, static_fetch_outcome;
  destruct ok; [|eexists _, _; reflexivity];
  match goal with
  | |- context [?cache !! ?key] => destruct (cache !! key) as [cached|]
  end; simpl;
  try match goal with
    | |- context [Qlt_bool ?a ?b] => destruct (Qlt_bool a b)
    end;
  try (eexists _, _; reflexivity);
  match goal with
  | |- context [match ?answer with Returned _ => _ | Raised _ => _ end] =>
      destruct answer
  end; eexists _, _; reflexivity.

Lemma get_kv_secret_returns (key : string) (env : Env) (w : World) :
  exists v w', get_kv_secret key env w = (Returned v, w').
Proof. returns_by get_kv_secret_run. Qed.

Lemma get_database_dynamic_secret_returns (key : string) (env : Env) (w : World) :
  exists v w', get_database_dynamic_secret key env w = (Returned v, w').
Proof. returns_by get_database_dynamic_secret_run. Qed.

Lemma get_database_static_secret_returns (key : string) (env : Env) (w : World) :
  exists v w', get_database_static_secret key env w = (Returned v, w').
Proof. returns_by get_database_static_secret_run. Qed.

Ltac failed_fetch Hget Hw2 Hr :=
  rewrite Hget;
  unfold kv_fetch_outcome, dynamic_fetch_outcome, static_fetch_outcome;
  destruct Hw2 as [-> | ->]; simpl; rewrite Hr; simpl;
  repeat split; assumption.

(** C6. Each get-secret operation returns, whatever the endpoint does: it
    never raises.  When the token cannot be ensured (the login or the renewal
    failed) it returns [None] and the caches are as before.  When the token is
    ensured, the entry is missing or stale and the remote read raises, with a
    [VaultError] or with anything else, it returns [None], and the client, its
    three caches included, is as it was before the read. *)
Theorem remote_failure_is_absorbed (env : Env) (w : World) (key : string) :
  (exists v w', get_kv_secret key env w = (Returned v, w')) /\
  (exists v w', get_database_dynamic_secret key env w = (Returned v, w')) /\
  (exists v w', get_database_static_secret key env w = (Returned v, w')) /\
  forall (ok : bool) (w1 : World),
    ensure_valid_token env w = (Returned ok, w1) ->
    let now := time_time env (clock_reads w1) in
    (ok = false ->
       get_kv_secret key env w = (Returned PyNone, w1) /\
       get_database_dynamic_secret key env w = (Returned PyNone, w1) /\
       get_database_static_secret key env w = (Returned PyNone, w1) /\
       caches (self w1) = caches (self w)) /\
    (ok = true ->
       (forall e,
          ~ kv_usable (self w) key now ->
          read_secret_version env (calls w1) key (entity (config (self w1)) ++ "-kv")
          = Raised e ->
          fst (get_kv_secret key env w) = Returned PyNone /\
          self (snd (get_kv_secret key env w)) = self w1 /\
          caches (self (snd (get_kv_secret key env w))) = caches (self w)) /\
       (forall e,
          ~ dynamic_usable (self w) key now ->
          generate_credentials env (calls w1) key
            (entity (config (self w1)) ++ "-database") = Raised e ->
          fst (get_database_dynamic_secret key env w) = Returned PyNone /\
          self (snd (get_database_dynamic_secret key env w)) = self w1 /\
          caches (self (snd (get_database_dynamic_secret key env w))) = caches (self w)) /\
       (forall e,
          ~ static_usable (self w) key now ->
          get_static_credentials env (calls w1) key
            (entity (config (self w1)) ++ "-database") = Raised e ->
          fst (get_database_static_secret key env w) = Returned PyNone /\
          self (snd (get_database_static_secret key env w)) = self w1 /\
          caches (self (snd (get_database_static_secret key env w))) = caches (self w))).
Proof.
  split; [apply get_kv_secret_returns|].
  split; [apply get_database_dynamic_secret_returns|].
  split; [apply get_database_static_secret_returns|].
  intros ok w1 E now.
  destruct (ensure_valid_token_keeps _ _ _ _ E) as (Hkv & Hdyn & Hst & Hcfg & Hfc).
  assert (Hcaches : caches (self w1) = caches (self w)).
  { unfold caches. rewrite Hkv, Hdyn, Hst. reflexivity. }
  split; intros ->.
  - rewrite (kv_denied _ _ _ key E), (dynamic_denied _ _ _ key E),
      (static_denied _ _ _ key E). auto.
  - split; [|split]; intros e Hn Hr.
    + destruct (kv_unusable_fetch _ _ _ _ E Hn) as (w2 & Hw2 & Hget).
      failed_fetch Hget Hw2 Hr.
    + destruct (dynamic_unusable_fetch _ _ _ _ E Hn) as (w2 & Hw2 & Hget).
      failed_fetch Hget Hw2 Hr.
    + destruct (static_unusable_fetch _ _ _ _ E Hn) as (w2 & Hw2 & Hget).
      failed_fetch Hget Hw2 Hr.
Qed.

(** With the endpoint refusing every secret read, a stale KV entry is not
    replaced: the operation answers [None] and the entry stored at 0 is still
    there. *)
Lemma remote_failure_is_absorbed_witness :
  fst (get_kv_secret "app/config" (Samples.env_no_secrets (fun _ => 310%Q))
         (Samples.start Samples.cached_client)) = Returned PyNone /\
  caches (self (snd (get_kv_secret "app/config" (Samples.env_no_secrets (fun _ => 310%Q))
                       (Samples.start Samples.cached_client))))
  = caches Samples.cached_client.
Proof.
  destruct (remote_failure_is_absorbed (Samples.env_no_secrets (fun _ => 310%Q))
              (Samples.start Samples.cached_client) "app/config")
    as (_ & _ & _ & Habsorb).
  destruct (Habsorb true (tick (tick (Samples.start Samples.cached_client))) eq_refl)
    as (_ & Hok).
  destruct (Hok eq_refl) as (Hkv & _ & _).
  destruct (Hkv (VaultError "invalid path")) as (Hnone & _ & Hsame).
  - intros (cached & Hl & Hf).
    vm_compute in Hl. injection Hl as <-.
    vm_compute in Hf. discriminate Hf.
  - reflexivity.
  - split; [exact Hnone | exact Hsame].
Defined.

(** ** C9: the two result shapes of [get_database_static_secret] *)

Lemma rewrap_wrapper (data : pyval) (ttl : Z) :
  rewrap_static_result (wrapper data ttl) = wrapper data ttl.
Proof. reflexivity. Qed.

Lemma rewrap_bare (items : list (string * pyval)) :
  dict_get items "errors" = None ->
  dict_get items "data" = None ->
  dict_get items "ttl" = None ->
  dict_get items "lease_duration" = None ->
  rewrap_static_result (PyDict items) = wrapper (PyDict items) (-1).
Proof.
  intros He Hd Ht Hl. unfold rewrap_static_result, dict_get_default, wrapper.
  rewrite He, Hd, Ht, Hl. reflexivity.
Qed.

Lemma rewrap_mapping (items : list (string * pyval)) :
  truthy (dict_get_default items "errors" PyNone) = false ->
  rewrap_static_result (PyDict items)
  = PyDict [("data", dict_get_default items "data" (PyDict items));
            ("ttl", dict_get_default items "ttl"
                      (dict_get_default items "lease_duration" (PyInt (-1))))].
Proof.
  intros He. unfold rewrap_static_result. rewrite He. reflexivity.
Qed.

(** What a pass of the static loop writes, from the result of the read and
    its re-wrapping. *)
Lemma static_iteration_outputs (env : AppEnv) (w : AppWorld) (cfg : AllConfig)
    (v : pyval) (cw : World) (items : list (string * pyval))
    (ttl username password : pyval) :
  get_database_static_secret (db_role_id (database_static cfg)) (client_env env)
    (client_world w) = (Returned v, cw) ->
  rewrap_static_result v = PyDict [("data", PyDict items); ("ttl", ttl)] ->
  dict_get items "username" = Some username ->
  dict_get items "password" = Some password ->
  database_static_iteration cfg env w
  = (Returned tt,
     {| client_world := cw;
        lookups := lookups w;
        outputs :=
          Sleep 10
            :: PrintF "  password: " password ""
            :: PrintF "  username: " username ""
            :: PrintF "🔒 Database Static Secret (TTL: " ttl "초):"
            :: PrintF "✅ Database Static 시크릿 조회 성공 (TTL: " ttl "초)"
            :: Print (nl ++ "=== Database Static Secret Refresh ===")
            :: outputs w |}).
Proof.
  intros Hget Hwrap Hu Hp.
  unfold database_static_iteration, app_try, app_bind, call_client, output, sleep,
    subscript. simpl.
  rewrite Hget. simpl. rewrite Hwrap. simpl. rewrite Hu, Hp. reflexivity.
Qed.

(** C9, as stated, fails: the hit result has a ['ttl'] key whenever the stored
    payload has one.  Credentials stored with a ['ttl'] of their own, 28, are
    answered bare with that key, and the pass of the static loop displays 28
    on the hit. *)
Lemma static_hit_with_ttl_key :
  fst (get_database_static_secret "static-role" (Samples.env_ok (fun _ => 10%Q))
         (Samples.start MoreSamples.rotating_client))
  = Returned (PyDict [("username", PyStr "v-app"); ("password", PyStr "pw");
                      ("ttl", PyInt 28)]) /\
  dict_get [("username", PyStr "v-app"); ("password", PyStr "pw"); ("ttl", PyInt 28)]
    "ttl" = Some (PyInt 28) /\
  outputs (snd (database_static_iteration MoreSamples.all_config MoreSamples.app_env_ok
                  (app_start (Samples.start MoreSamples.rotating_client))))
  = [Sleep 10;
     PrintF "  password: " (PyStr "pw") "";
     PrintF "  username: " (PyStr "v-app") "";
     PrintF "🔒 Database Static Secret (TTL: " (PyInt 28) "초):";
     PrintF "✅ Database Static 시크릿 조회 성공 (TTL: " (PyInt 28) "초)";
     Print (nl ++ "=== Database Static Secret Refresh ===")].
Proof. repeat split; vm_compute; reflexivity. Qed.

(** C9, amended.  Once the token is ensured, [get_database_static_secret]
    answers a fresh cache hit with the stored payload itself: a mapping that
    has a ['ttl'] key exactly when the payload has one, and that differs from
    every wrapper when it has none.  After a remote read that answers, it
    returns the wrapper [{'data': payload, 'ttl': ttl}], [ttl] being 3600 when
    the response has none.  The pass of the static loop re-wraps the result
    ([rewrap_static_result] leaves a wrapper as it is): for credentials with a
    ['username'] and a ['password'], after a remote read it displays them
    with the [ttl] of the wrapper, and on a hit (payload without a true
    ['errors'] and without a ['data'] key) it displays them with the payload's
    own ['ttl'], else its ['lease_duration'], else -1. *)
Theorem static_secret_result_shapes (env : AppEnv) (w : AppWorld) (w1 : World)
    (cfg : AllConfig) :
  ensure_valid_token (client_env env) (client_world w) = (Returned true, w1) ->
  let role := db_role_id (database_static cfg) in
  let now := time_time (client_env env) (clock_reads w1) in
  let result := fst (get_database_static_secret role (client_env env) (client_world w)) in
  let displayed := fun ttl username password : pyval =>
    Sleep 10
      :: PrintF "  password: " password ""
      :: PrintF "  username: " username ""
      :: PrintF "🔒 Database Static Secret (TTL: " ttl "초):"
      :: PrintF "✅ Database Static 시크릿 조회 성공 (TTL: " ttl "초)"
      :: Print (nl ++ "=== Database Static Secret Refresh ===")
      :: outputs w in
  (forall cached,
     db_static_cache (self (client_world w)) !! role = Some cached ->
     spec_time_window_fresh now (db_timestamp cached) ->
     result = Returned (db_data cached) /\
     (forall items,
        db_data cached = PyDict items ->
        (dict_get items "ttl" = None ->
         forall data ttl, db_data cached <> PyDict [("data", data); ("ttl", ttl)]) /\
        (forall username password,
           truthy (dict_get_default items "errors" PyNone) = false ->
           dict_get items "data" = None ->
           dict_get items "username" = Some username ->
           dict_get items "password" = Some password ->
           outputs (snd (database_static_iteration cfg env w))
           = displayed
               (dict_get_default items "ttl"
                  (dict_get_default items "lease_duration" (PyInt (-1))))
               username password))) /\
  (forall response,
     ~ static_usable (self (client_world w)) role now ->
     get_static_credentials (client_env env) (calls w1) role
       (entity (config (self w1)) ++ "-database") = Returned response ->
     let ttl := match static_ttl response with
                | Some n => n
                | None => 3600%Z
                end in
     result = Returned (PyDict [("data", static_data response); ("ttl", PyInt ttl)]) /\
     (forall items username password,
        static_data response = PyDict items ->
        dict_get items "username" = Some username ->
        dict_get items "password" = Some password ->
        outputs (snd (database_static_iteration cfg env w))
        = displayed (PyInt ttl) username password)) /\
  (forall data ttl,
     rewrap_static_result (PyDict [("data", data); ("ttl", PyInt ttl)])
     = PyDict [("data", data); ("ttl", PyInt ttl)]).
Proof.
  intros E role now result displayed. subst result displayed.
  split; [|split].
  - intros cached Hl Hf.
    pose proof (static_hit _ _ _ _ E cached Hl Hf) as Hget. fold role in Hget.
    split; [rewrite Hget; reflexivity|].
    intros items Hd. split.
    + intros Ht data ttl Heq. rewrite Hd in Heq. injection Heq as ->.
      simpl in Ht. discriminate Ht.
    + intros username password He Hda Hu Hp.
      rewrite (static_iteration_outputs env w cfg (db_data cached) (tick w1) items
                 (dict_get_default items "ttl"
                    (dict_get_default items "lease_duration" (PyInt (-1))))
                 username password Hget); [reflexivity| |exact Hu|exact Hp].
      rewrite Hd, (rewrap_mapping items He). unfold dict_get_default at 1.
      rewrite Hda. reflexivity.
  - intros response Hn Hr ttl.
    destruct (static_unusable_fetch _ _ _ _ E Hn) as (w2 & Hw2 & Hget).
    fold role in Hget.
    assert (Hres : exists cw,
               get_database_static_secret role (client_env env) (client_world w)
               = (Returned (wrapper (static_data response) ttl), cw)).
    { rewrite Hget. unfold static_fetch_outcome.
      destruct Hw2 as [-> | ->]; simpl; rewrite Hr; eexists; reflexivity. }
    destruct Hres as (cw & Hres).
    split; [rewrite Hres; reflexivity|].
    intros items username password Hd Hu Hp.
    rewrite (static_iteration_outputs env w cfg _ cw items (PyInt ttl)
               username password Hres); [reflexivity| |exact Hu|exact Hp].
    rewrite rewrap_wrapper, Hd. reflexivity.
  - intros data ttl. apply rewrap_wrapper.
Qed.

(** The static credentials stored at 0 without a ['ttl'] of their own are
    answered bare at 10, and the pass displays them with a TTL of -1. *)
Lemma static_secret_result_shapes_witness :
  fst (get_database_static_secret "static-role" (Samples.env_ok (fun _ => 10%Q))
         (Samples.start Samples.cached_client))
  = Returned Samples.creds /\
  outputs (snd (database_static_iteration MoreSamples.all_config MoreSamples.app_env_ok
                  (app_start (Samples.start Samples.cached_client))))
  = [Sleep 10;
     PrintF "  password: " (PyStr "pw") "";
     PrintF "  username: " (PyStr "v-app") "";
     PrintF "🔒 Database Static Secret (TTL: " (PyInt (-1)) "초):";
     PrintF "✅ Database Static 시크릿 조회 성공 (TTL: " (PyInt (-1)) "초)";
     Print (nl ++ "=== Database Static Secret Refresh ===")].
Proof.
  destruct (static_secret_result_shapes MoreSamples.app_env_ok
              (app_start (Samples.start Samples.cached_client))
              (tick (tick (Samples.start Samples.cached_client)))
              MoreSamples.all_config eq_refl) as (Hhit & _ & _).
  destruct (Hhit {| db_data := Samples.creds; db_ttl := 3600; db_timestamp := 0 |}
              eq_refl eq_refl) as [Hres Hitems].
  split; [exact Hres|].
  destruct (Hitems [("username", PyStr "v-app"); ("password", PyStr "pw")] eq_refl)
    as [_ Hpass].
  exact (Hpass (PyStr "v-app") (PyStr "pw") eq_refl eq_refl eq_refl eq_refl).
Defined.

(** ** The scenarios of the specification *)

(** A token with a lease of 100 seconds issued 81 seconds ago is expired. *)
Example scenario_token_81_of_100 :
  fst (is_token_expired (Samples.env_ok (fun _ => 81%Q))
         (Samples.start Samples.logged_in))
  = Returned true.
Proof. reflexivity. Qed.

(** A KV entry stored 250 seconds ago is answered from the cache; stored 310
    seconds ago it is stale and one remote read is made. *)
Example scenario_kv_250_310 :
  calls (snd (get_kv_secret "app/config" (Samples.env_ok (fun _ => 250%Q))
                (Samples.start Samples.cached_client))) = [] /\
  calls (snd (get_kv_secret "app/config" (Samples.env_ok (fun _ => 310%Q))
                (Samples.start Samples.cached_client)))
  = [ReadSecretVersion "app/config" "my-app-kv"].
Proof. split; vm_compute; reflexivity. Qed.

(** Dynamic credentials with a lease of 20 seconds stored 12 seconds ago: 8
    seconds remain, the entry is stale and new credentials are generated. *)
Example scenario_dynamic_20_12 :
  spec_remaining_lease 12 {| db_data := Samples.creds; db_ttl := 20; db_timestamp := 0 |}
  = 8%Q /\
  calls (snd (get_database_dynamic_secret "app-role" (Samples.env_ok (fun _ => 12%Q))
                (Samples.start Samples.cached_client)))
  = [GenerateCredentials "app-role" "my-app-database"].
Proof. split; vm_compute; reflexivity. Qed.

(** A remote read that raises: [None] is answered and the entry stays. *)
Example scenario_remote_error :
  get_kv_secret "app/config" (Samples.env_no_secrets (fun _ => 310%Q))
    (Samples.start Samples.cached_client)
  = (Returned PyNone,
     logged (ReadSecretVersion "app/config" "my-app-kv")
       (tick (tick (tick (Samples.start Samples.cached_client))))).
Proof. vm_compute. reflexivity. Qed.

(** * Further properties of the client *)

(** ** The token after a login *)

Lemma token_truthy_nonempty (t : string) : t <> "" -> token_truthy (Some t) = true.
Proof.
  intros Hne. simpl. apply negb_true_iff. apply String.eqb_neq. exact Hne.
Qed.

(** X1. After a login that the endpoint answers with a non-empty token and a
    positive lease, [is_token_expired] reads the clock and answers false
    exactly while less than 0.8 of the lease has passed since the reading
    [login] took. *)
Theorem login_then_expiry_window (env : Env) (w w2 : World) (response : AuthResponse) :
  approle_login env (calls w) (role_id (config (self w))) (secret_id (config (self w)))
  = Returned response ->
  auth_client_token response <> "" ->
  (0 < auth_lease_duration response)%Z ->
  self w2 = self (snd (login env w)) ->
  let issued := time_time env (clock_reads w) in
  let t := time_time env (clock_reads w2) in
  exists b : bool,
    is_token_expired env w2 = (Returned b, tick w2) /\
    (b = false <-> (t - issued < 0.8 * inject_Z (auth_lease_duration response))%Q).
Proof.
  intros Hr Htok Hlease Hself issued t.
  rewrite is_token_expired_run, Hself, login_run, Hr. simpl.
  rewrite (proj2 (String.eqb_neq _ _) Htok). simpl.
  destruct (auth_lease_duration response <=? 0)%Z eqn:Hl;
    [apply Z.leb_le in Hl; lia|].
  eexists. split; [reflexivity|].
  fold issued t. rewrite (Qmult_comm (inject_Z _)).
  split.
  - intros Hb. apply Qnot_le_lt. intros Hle. apply Qle_bool_iff in Hle. congruence.
  - intros Hlt. destruct (Qle_bool _ _) eqn:E; [|reflexivity].
    apply Qle_bool_iff in E. exfalso. exact (Qlt_not_le _ _ Hlt E).
Qed.

(** A login at clock reading 81 for 3600 seconds: at the next reading, still
    81, the token is not expired. *)
Lemma login_then_expiry_window_witness :
  is_token_expired (Samples.env_ok (fun _ => 81%Q))
    (snd (login (Samples.env_ok (fun _ => 81%Q)) (Samples.start Samples.logged_in)))
  = (Returned false,
     tick (snd (login (Samples.env_ok (fun _ => 81%Q)) (Samples.start Samples.logged_in)))).
Proof.
  destruct (login_then_expiry_window (Samples.env_ok (fun _ => 81%Q))
              (Samples.start Samples.logged_in)
              (snd (login (Samples.env_ok (fun _ => 81%Q))
                      (Samples.start Samples.logged_in)))
              {| auth_client_token := "s.new"; auth_lease_duration := 3600 |}
              eq_refl ltac:(discriminate) ltac:(reflexivity) eq_refl)
    as (b & E & Hb).
  rewrite E. f_equal. f_equal. apply Hb. reflexivity.
Defined.

(** X2. When the endpoint answers a login with a lease of 0 or less, or with
    an empty token, the token it installs counts as expired at once: the next
    [ensure_valid_token] is a login again, whatever the clock reads. *)
Theorem login_without_lease_relogin (env : Env) (w w2 : World) (response : AuthResponse) :
  approle_login env (calls w) (role_id (config (self w))) (secret_id (config (self w)))
  = Returned response ->
  (auth_lease_duration response <= 0)%Z \/ auth_client_token response = "" ->
  self w2 = self (snd (login env w)) ->
  forall env2 : Env, ensure_valid_token env2 w2 = login env2 w2.
Proof.
  intros Hr Hbad Hself env2.
  rewrite ensure_valid_token_run, is_token_expired_run, Hself, login_run, Hr. simpl.
  destruct Hbad as [Hl | ->].
  - apply Z.leb_le in Hl. rewrite Hl, orb_true_r. reflexivity.
  - reflexivity.
Qed.

(** With a lease of 0 the login is repeated by the next
    [ensure_valid_token]. *)
Lemma login_without_lease_relogin_witness :
  calls (snd (ensure_valid_token (MoreSamples.env_no_lease (fun _ => 5%Q))
                (snd (login (MoreSamples.env_no_lease (fun _ => 5%Q))
                        (Samples.start (init Samples.cfg))))))
  = [AppRoleLogin "role-1" "secret-1"; AppRoleLogin "role-1" "secret-1"].
Proof.
  rewrite (login_without_lease_relogin (MoreSamples.env_no_lease (fun _ => 5%Q))
             (Samples.start (init Samples.cfg))
             (snd (login (MoreSamples.env_no_lease (fun _ => 5%Q))
                     (Samples.start (init Samples.cfg))))
             {| auth_client_token := "s.root"; auth_lease_duration := 0 |}
             eq_refl (or_introl (Z.le_refl 0)) eq_refl).
  reflexivity.
Defined.

(** ** What [ensure_valid_token] can do *)

(** The ways a run of [ensure_valid_token] can go. *)
Lemma ensure_valid_token_shape (env : Env) (w : World) :
  exists (ok : bool) (w1 : World),
    ensure_valid_token env w = (Returned ok, w1) /\
    (clock_reads w <= clock_reads w1 <= clock_reads w + 3)%nat /\
    ((calls w1 = calls w /\ self w1 = self w /\ ok = true) \/
     (calls w1 = login_call (self w) :: calls w /\
      ((ok = false /\ self w1 = self w) \/
       (ok = true /\ exists response t, self w1 = after_login response t (self w)))) \/
     (calls w1 = renew_call (self w) :: calls w /\
      ((ok = false /\ self w1 = self w) \/
       (ok = true /\ exists response t, self w1 = after_renew response t (self w))))).
Proof.
  rewrite ensure_valid_token_run.
  assert (Hexp : forall v : World,
            exists b v', is_token_expired env v = (Returned b, v') /\
                         (v' = v \/ v' = tick v)).
  { intros v. rewrite is_token_expired_run.
    destruct (negb (token_truthy (token (self v))) || (token_ttl (self v) <=? 0)%Z);
      eexists _, _; (split; [reflexivity|]); auto. }
  destruct (Hexp w) as (e1 & w1 & -> & Hw1).
  assert (H1 : self w1 = self w /\ calls w1 = calls w /\
               (clock_reads w <= clock_reads w1 <= clock_reads w + 1)%nat).
  { destruct Hw1 as [-> | ->]; simpl; repeat split; lia. }
  destruct H1 as (Hs1 & Hc1 & Hk1). destruct e1.
  - rewrite login_run.
    destruct (approle_login env (calls w1) _ _) as [response|e];
      eexists _, _; (split; [reflexivity|]); simpl;
      (split; [lia|]); right; left; rewrite Hs1, Hc1; (split; [reflexivity|]).
    + right. split; [reflexivity|]. eexists _, _. reflexivity.
    + left. split; reflexivity.
  - destruct (Hexp w1) as (e2 & w2 & -> & Hw2).
    assert (H2 : self w2 = self w /\ calls w2 = calls w /\
                 (clock_reads w <= clock_reads w2 <= clock_reads w + 2)%nat).
    { destruct Hw2 as [-> | ->]; simpl; rewrite ?Hs1, ?Hc1; repeat split; lia. }
    destruct H2 as (Hs2 & Hc2 & Hk2). destruct e2.
    + rewrite renew_token_run.
      destruct (renew_self env (calls w2) _) as [response|e];
        eexists _, _; (split; [reflexivity|]); simpl;
        (split; [lia|]); right; right; rewrite Hs2, Hc2; (split; [reflexivity|]).
      * right. split; [reflexivity|]. eexists _, _. reflexivity.
      * left. split; reflexivity.
    + eexists _, _. split; [reflexivity|]. split; [lia|]. left. auto.
Qed.

(** X3. [ensure_valid_token] reads the clock at most three times and makes at
    most one remote call, the login or the renewal, never a secret read.
    Without a remote call it answers true and leaves the client as it was;
    when it answers false it has made that one call and left the client as it
    was. *)
Theorem ensure_valid_token_one_auth_call (env : Env) (w : World) :
  exists (ok : bool) (w1 : World),
    ensure_valid_token env w = (Returned ok, w1) /\
    (clock_reads w <= clock_reads w1 <= clock_reads w + 3)%nat /\
    ((calls w1 = calls w /\ self w1 = self w /\ ok = true) \/
     (exists c : Call,
        calls w1 = c :: calls w /\
        (c = login_call (self w) \/ c = renew_call (self w)) /\
        is_fetch c = false /\
        (ok = false -> self w1 = self w))).
Proof.
  destruct (ensure_valid_token_shape env w) as (ok & w1 & E & Hk & Hcases).
  exists ok, w1. split; [exact E|]. split; [exact Hk|].
  destruct Hcases as [H | [[Hc Hs] | [Hc Hs]]]; [left; exact H| |];
    right; eexists; (split; [exact Hc|]).
  - split; [left; reflexivity|]. split; [reflexivity|].
    intros ->. destruct Hs as [[_ Hs] | [Hs _]]; [exact Hs|discriminate].
  - split; [right; reflexivity|]. split; [reflexivity|].
    intros ->. destruct Hs as [[_ Hs] | [Hs _]]; [exact Hs|discriminate].
Qed.

(** X4. Expiry only moves forward: for one and the same token state, when
    [is_token_expired] answers true at one clock reading it answers true at
    every reading that is not earlier. *)
Theorem is_token_expired_monotone (env env2 : Env) (w w2 : World) :
  self w2 = self w ->
  (time_time env (clock_reads w) <= time_time env2 (clock_reads w2))%Q ->
  fst (is_token_expired env w) = Returned true ->
  fst (is_token_expired env2 w2) = Returned true.
Proof.
  intros Hself Hle. rewrite !is_token_expired_run, Hself.
  destruct (negb (token_truthy (token (self w))) || (token_ttl (self w) <=? 0)%Z);
    [reflexivity|]. simpl.
  intros H. injection H as H. f_equal. apply Qle_bool_iff in H. apply Qle_bool_iff.
  eapply Qle_trans; [exact H|].
  apply Qplus_le_l. exact Hle.
Qed.

(** A token expired at reading 80 is expired at reading 81. *)
Lemma is_token_expired_monotone_witness :
  fst (is_token_expired (Samples.env_ok (fun _ => 81%Q)) (Samples.start Samples.logged_in))
  = Returned true.
Proof.
  apply (is_token_expired_monotone (Samples.env_ok (fun _ => 80%Q))
           (Samples.env_ok (fun _ => 81%Q))
           (Samples.start Samples.logged_in) (Samples.start Samples.logged_in)
           eq_refl).
  - discriminate.
  - reflexivity.
Defined.

(** ** The ways a get-secret operation can go *)

Ltac shape_by run :=
  let ok := fresh "ok" in
  let w1 := fresh "w1" in
  let E := fresh "E" in
  match goal with
  | |- context [?get ?key ?env ?w] =>
      destruct (ensure_valid_token_total env w) as (ok & w1 & E & _)
  end;
  rewrite run, E;
  unfold kv_fetch_outcome, dynamic_fetch_outcome, static_fetch_outcome;
  exists ok, w1;
  destruct ok;
  [ match goal with
    | |- context [?cache !! ?key] => destruct (cache !! key) as [cached|]
    end; simpl;
    try match goal with
      | |- context [Qlt_bool ?a ?b] => destruct (Qlt_bool a b)
      end;
    try match goal with
      | |- context [match ?answer with Returned _ => _ | Raised _ => _ end] =>
          destruct answer
      end
  | ];
  eexists _, _; (split; [reflexivity|]); (split; [reflexivity|]); simpl;
  (split; [lia|]);
  first [ left; split; reflexivity
        | right; split; [reflexivity|]; left; reflexivity
        | right; split; [reflexivity|]; right; eexists; reflexivity ].

Lemma get_kv_secret_shape (key : string) (env : Env) (w : World) :
  exists (ok : bool) (w1 : World) (v : pyval) (w' : World),
    ensure_valid_token env w = (Returned ok, w1) /\
    get_kv_secret key env w = (Returned v, w') /\
    (clock_reads w1 <= clock_reads w' <= clock_reads w1 + 2)%nat /\
    ((calls w' = calls w1 /\ self w' = self w1) \/
     (calls w' = kv_call (self w1) key :: calls w1 /\
      (self w' = self w1 \/
       exists e, self w' = set_kv_cache (<[key := e]> (kv_cache (self w1))) (self w1)))).
Proof. shape_by get_kv_secret_run. Qed.

Lemma get_database_dynamic_secret_shape (key : string) (env : Env) (w : World) :
  exists (ok : bool) (w1 : World) (v : pyval) (w' : World),
    ensure_valid_token env w = (Returned ok, w1) /\
    get_database_dynamic_secret key env w = (Returned v, w') /\
    (clock_reads w1 <= clock_reads w' <= clock_reads w1 + 2)%nat /\
    ((calls w' = calls w1 /\ self w' = self w1) \/
     (calls w' = dynamic_call (self w1) key :: calls w1 /\
      (self w' = self w1 \/
       exists e, self w' =
                   set_db_dynamic_cache (<[key := e]> (db_dynamic_cache (self w1)))
                     (self w1)))).
Proof. shape_by get_database_dynamic_secret_run. Qed.

Lemma get_database_static_secret_shape (key : string) (env : Env) (w : World) :
  exists (ok : bool) (w1 : World) (v : pyval) (w' : World),
    ensure_valid_token env w = (Returned ok, w1) /\
    get_database_static_secret key env w = (Returned v, w') /\
    (clock_reads w1 <= clock_reads w' <= clock_reads w1 + 2)%nat /\
    ((calls w' = calls w1 /\ self w' = self w1) \/
     (calls w' = static_call (self w1) key :: calls w1 /\
      (self w' = self w1 \/
       exists e, self w' =
                   set_db_static_cache (<[key := e]> (db_static_cache (self w1)))
                     (self w1)))).
Proof. shape_by get_database_static_secret_run. Qed.

(** ** Invariants of the client *)

Lemma ensure_valid_token_mirror (env : Env) (w : World) :
  client_token (self w) = token (self w) ->
  client_token (self (snd (ensure_valid_token env w)))
  = token (self (snd (ensure_valid_token env w))).
Proof.
  intros Hm.
  destruct (ensure_valid_token_shape env w) as (ok & w1 & -> & _ & Hcases). simpl.
  destruct Hcases as [(_ & -> & _) | [[_ Hs] | [_ Hs]]]; [exact Hm| |];
    destruct Hs as [[_ ->] | [_ (response & t & ->)]];
    first [exact Hm | reflexivity].
Qed.

(** X5. The token of the hvac client mirrors [self.token]: when the two agree,
    as they do after [__init__], they still agree after [login],
    [renew_token], [ensure_valid_token] and each get-secret operation, whatever
    the endpoint answers. *)
Theorem client_token_mirrors_token (env : Env) (w : World) (key : string) :
  client_token (self w) = token (self w) ->
  let mirrored := fun w' : World => client_token (self w') = token (self w') in
  mirrored (snd (login env w)) /\
  mirrored (snd (renew_token env w)) /\
  mirrored (snd (ensure_valid_token env w)) /\
  mirrored (snd (get_kv_secret key env w)) /\
  mirrored (snd (get_database_dynamic_secret key env w)) /\
  mirrored (snd (get_database_static_secret key env w)).
Proof.
  intros Hm mirrored. subst mirrored. simpl.
  pose proof (ensure_valid_token_mirror env w Hm) as He.
  split; [|split; [|split; [exact He|]]].
  - rewrite login_run. destruct (approle_login env _ _ _); [reflexivity|exact Hm].
  - rewrite renew_token_run. destruct (renew_self env _ _); exact Hm.
  - split; [|split].
    + destruct (get_kv_secret_shape key env w) as (ok & w1 & v & w' & E & -> & _ & Hc).
      rewrite E in He. simpl in *.
      destruct Hc as [[_ ->] | [_ [-> | [e ->]]]]; exact He.
    + destruct (get_database_dynamic_secret_shape key env w)
        as (ok & w1 & v & w' & E & -> & _ & Hc).
      rewrite E in He. simpl in *.
      destruct Hc as [[_ ->] | [_ [-> | [e ->]]]]; exact He.
    + destruct (get_database_static_secret_shape key env w)
        as (ok & w1 & v & w' & E & -> & _ & Hc).
      rewrite E in He. simpl in *.
      destruct Hc as [[_ ->] | [_ [-> | [e ->]]]]; exact He.
Qed.

(** From a new client, a get-secret operation that logs in leaves both tokens
    equal. *)
Lemma client_token_mirrors_token_witness :
  client_token (self (snd (get_kv_secret "app/config" (Samples.env_ok (fun _ => 5%Q))
                             (Samples.start (init Samples.cfg)))))
  = token (self (snd (get_kv_secret "app/config" (Samples.env_ok (fun _ => 5%Q))
                        (Samples.start (init Samples.cfg))))).
Proof.
  destruct (client_token_mirrors_token (Samples.env_ok (fun _ => 5%Q))
              (Samples.start (init Samples.cfg)) "app/config" eq_refl)
    as (_ & _ & _ & Hkv & _).
  exact Hkv.
Defined.

Ltac frame_by shape :=
  match goal with
  | |- context [?get ?key ?env ?w] =>
      let ok := fresh "ok" in
      let w1 := fresh "w1" in
      let v := fresh "v" in
      let w' := fresh "w'" in
      let E := fresh "E" in
      let Hc := fresh "Hc" in
      let e := fresh "e" in
      destruct (shape key env w) as (ok & w1 & v & w' & E & -> & _ & Hc);
      destruct (ensure_valid_token_keeps _ _ _ _ E) as (Hkv & Hdyn & Hst & Hcfg & _);
      simpl;
      destruct Hc as [[_ ->] | [_ [-> | [e ->]]]]; simpl;
      rewrite ?Hkv, ?Hdyn, ?Hst, ?Hcfg;
      repeat split; try reflexivity;
      first [ intros k Hk; rewrite ?lookup_insert_ne by congruence; reflexivity
            | intros Hsome; rewrite ?lookup_insert_eq; eauto ]
  end.

(** X6. A get-secret operation touches nothing but its own cache, and there
    nothing but the entry of the key it was asked for: the configuration and
    the caches of the other two categories are as before, every other key of
    its own cache maps to what it mapped to, and no entry is ever removed. *)
Theorem get_secret_frame (env : Env) (w : World) (key : string) :
  let kv := self (snd (get_kv_secret key env w)) in
  let dyn := self (snd (get_database_dynamic_secret key env w)) in
  let st := self (snd (get_database_static_secret key env w)) in
  (config kv = config (self w) /\
   db_dynamic_cache kv = db_dynamic_cache (self w) /\
   db_static_cache kv = db_static_cache (self w) /\
   (forall k, k <> key -> kv_cache kv !! k = kv_cache (self w) !! k) /\
   (is_Some (kv_cache (self w) !! key) -> is_Some (kv_cache kv !! key))) /\
  (config dyn = config (self w) /\
   kv_cache dyn = kv_cache (self w) /\
   db_static_cache dyn = db_static_cache (self w) /\
   (forall k, k <> key -> db_dynamic_cache dyn !! k = db_dynamic_cache (self w) !! k) /\
   (is_Some (db_dynamic_cache (self w) !! key) -> is_Some (db_dynamic_cache dyn !! key))) /\
  (config st = config (self w) /\
   kv_cache st = kv_cache (self w) /\
   db_dynamic_cache st = db_dynamic_cache (self w) /\
   (forall k, k <> key -> db_static_cache st !! k = db_static_cache (self w) !! k) /\
   (is_Some (db_static_cache (self w) !! key) -> is_Some (db_static_cache st !! key))).
Proof.
  intros kv dyn st. subst kv dyn st. split; [|split].
  - frame_by get_kv_secret_shape.
  - frame_by get_database_dynamic_secret_shape.
  - frame_by get_database_static_secret_shape.
Qed.

Ltac calls_by shape :=
  match goal with
  | |- context [?get ?key ?env ?w] =>
      let ok := fresh "ok" in
      let w1 := fresh "w1" in
      let v := fresh "v" in
      let w' := fresh "w'" in
      let E := fresh "E" in
      let Hk := fresh "Hk" in
      let Hc := fresh "Hc" in
      let ok0 := fresh "ok" in
      let w0 := fresh "w" in
      let E0 := fresh "E" in
      let Hk0 := fresh "Hk" in
      let Hc0 := fresh "Hc" in
      destruct (shape key env w) as (ok & w1 & v & w' & E & -> & Hk & Hc);
      destruct (ensure_valid_token_shape env w) as (ok0 & w0 & E0 & Hk0 & Hc0);
      rewrite E in E0; injection E0 as <- <-;
      destruct (ensure_valid_token_keeps _ _ _ _ E) as (_ & _ & _ & Hcfg & _);
      simpl;
      unfold kv_call, dynamic_call, static_call in *; rewrite Hcfg in Hc;
      (split; [lia|]);
      destruct Hc as [[-> _] | [-> _]];
      destruct Hc0 as [(-> & _) | [[-> _] | [-> _]]];
      [ exists [], [] | exists [], [login_call (self w)] | exists [], [renew_call (self w)]
      | eexists [_], [] | eexists [_], [login_call (self w)]
      | eexists [_], [renew_call (self w)] ];
      (split; [reflexivity|]); split; auto
  end.

(** X7. A get-secret operation makes at most two remote calls and reads the
    clock at most five times: at most one login or renewal, and after it at
    most one secret read, the one of its category for the key and the
    configured mount.  (The log has the latest call first.) *)
Theorem get_secret_call_bound (env : Env) (w : World) (key : string) :
  let auth_calls := fun auths : list Call =>
    auths = [] \/ auths = [login_call (self w)] \/ auths = [renew_call (self w)] in
  (let w' := snd (get_kv_secret key env w) in
   (clock_reads w <= clock_reads w' <= clock_reads w + 5)%nat /\
   exists fetches auths : list Call,
     calls w' = (fetches ++ auths ++ calls w)%list /\
     (fetches = [] \/
      fetches = [ReadSecretVersion key (entity (config (self w)) ++ "-kv")]) /\
     auth_calls auths) /\
  (let w' := snd (get_database_dynamic_secret key env w) in
   (clock_reads w <= clock_reads w' <= clock_reads w + 5)%nat /\
   exists fetches auths : list Call,
     calls w' = (fetches ++ auths ++ calls w)%list /\
     (fetches = [] \/
      fetches = [GenerateCredentials key (entity (config (self w)) ++ "-database")]) /\
     auth_calls auths) /\
  (let w' := snd (get_database_static_secret key env w) in
   (clock_reads w <= clock_reads w' <= clock_reads w + 5)%nat /\
   exists fetches auths : list Call,
     calls w' = (fetches ++ auths ++ calls w)%list /\
     (fetches = [] \/
      fetches = [GetStaticCredentials key (entity (config (self w)) ++ "-database")]) /\
     auth_calls auths).
Proof.
  intros auth_calls. subst auth_calls. simpl. split; [|split].
  - calls_by get_kv_secret_shape.
  - calls_by get_database_dynamic_secret_shape.
  - calls_by get_database_static_secret_shape.
Qed.

(** ** A fetch followed by a lookup *)

Lemma kv_fetch_stores (env : Env) (w w1 : World) (key : string) (response : KvResponse) :
  ensure_valid_token env w = (Returned true, w1) ->
  ~ kv_usable (self w) key (time_time env (clock_reads w1)) ->
  read_secret_version env (calls w1) key (entity (config (self w1)) ++ "-kv")
  = Returned response ->
  fst (get_kv_secret key env w) = Returned (resp_data response) /\
  kv_cache (self (snd (get_kv_secret key env w))) !! key
  = Some (kv_entry response (last_reading env (snd (get_kv_secret key env w)))).
Proof.
  intros E Hn Hr.
  destruct (kv_unusable_fetch _ _ _ _ E Hn) as (w2 & Hw2 & ->).
  unfold kv_fetch_outcome.
  destruct Hw2 as [-> | ->]; simpl; rewrite Hr; simpl;
    rewrite lookup_insert_eq; split; reflexivity.
Qed.

Lemma dynamic_fetch_stores (env : Env) (w w1 : World) (key : string)
    (response : DynamicResponse) :
  ensure_valid_token env w = (Returned true, w1) ->
  ~ dynamic_usable (self w) key (time_time env (clock_reads w1)) ->
  generate_credentials env (calls w1) key (entity (config (self w1)) ++ "-database")
  = Returned response ->
  fst (get_database_dynamic_secret key env w)
  = Returned (wrapper (dyn_data response) (dyn_lease_duration response)) /\
  db_dynamic_cache (self (snd (get_database_dynamic_secret key env w))) !! key
  = Some (dynamic_entry response
            (last_reading env (snd (get_database_dynamic_secret key env w)))).
Proof.
  intros E Hn Hr.
  destruct (dynamic_unusable_fetch _ _ _ _ E Hn) as (w2 & Hw2 & ->).
  unfold dynamic_fetch_outcome.
  destruct Hw2 as [-> | ->]; simpl; rewrite Hr; simpl;
    rewrite lookup_insert_eq; split; reflexivity.
Qed.


(** X8. What [get_kv_secret] fetched, it serves again: after a call that read
    the secret from the endpoint, a second call for the same path, made with
    the token ensured and less than 300 seconds (by the clock readings) after
    the entry was stamped, returns the very data of the first call and makes
    no remote read. *)
Theorem kv_fetch_then_hit (env : Env) (w w1 w2 : World) (key : string)
    (response : KvResponse) :
  ensure_valid_token env w = (Returned true, w1) ->
  ~ kv_usable (self w) key (time_time env (clock_reads w1)) ->
  read_secret_version env (calls w1) key (entity (config (self w1)) ++ "-kv")
  = Returned response ->
  let first := get_kv_secret key env w in
  ensure_valid_token env (snd first) = (Returned true, w2) ->
  (time_time env (clock_reads w2) - last_reading env (snd first) < 300)%Q ->
  fst first = Returned (resp_data response) /\
  get_kv_secret key env (snd first) = (Returned (resp_data response), tick w2).
Proof.
  intros E Hn Hr first E2 Hage. subst first.
  destruct (kv_fetch_stores env w w1 key response E Hn Hr) as [Hres Hstored].
  split; [exact Hres|].
  apply (kv_hit env _ w2 key E2 _ Hstored). exact Hage.
Qed.

(** A new client reads ["app/config"] twice with the clock at 5: one remote
    read, the same data both times. *)
Lemma kv_fetch_then_hit_witness :
  get_kv_secret "app/config" (Samples.env_ok (fun _ => 5%Q))
    (snd (get_kv_secret "app/config" (Samples.env_ok (fun _ => 5%Q))
            (Samples.start Samples.logged_in)))
  = (Returned Samples.creds,
     tick (tick (tick (snd (get_kv_secret "app/config" (Samples.env_ok (fun _ => 5%Q))
                              (Samples.start Samples.logged_in)))))).
Proof.
  destruct (kv_fetch_then_hit (Samples.env_ok (fun _ => 5%Q))
              (Samples.start Samples.logged_in)
              (tick (tick (Samples.start Samples.logged_in)))
              (tick (tick (snd (get_kv_secret "app/config"
                                  (Samples.env_ok (fun _ => 5%Q))
                                  (Samples.start Samples.logged_in)))))
              "app/config"
              {| resp_data := Samples.creds; resp_metadata := {| version := 1 |} |}
              eq_refl) as [_ Hsecond].
  - intros (cached & Hl & _). vm_compute in Hl. discriminate Hl.
  - reflexivity.
  - reflexivity.
  - reflexivity.
  - exact Hsecond.
Defined.







(** ** The scheduler's re-wrapping *)

(** X11. The re-wrapping of [_database_static_scheduler] yields [None] or a
    mapping with exactly the keys ['data'] and ['ttl'], and re-wrapping its
    result again changes nothing.  It yields [None] for everything that is not
    a mapping, so for the [None] of a failed read, and for a mapping whose
    ['errors'] entry is true as a Python value. *)
Theorem rewrap_static_result_normal (v : pyval) :
  (rewrap_static_result v = PyNone \/
   exists data ttl, rewrap_static_result v = PyDict [("data", data); ("ttl", ttl)]) /\
  rewrap_static_result (rewrap_static_result v) = rewrap_static_result v /\
  ((forall items, v <> PyDict items) -> rewrap_static_result v = PyNone) /\
  (forall items e,
     v = PyDict items -> dict_get items "errors" = Some e -> truthy e = true ->
     rewrap_static_result v = PyNone).
Proof.
  assert (Hform : rewrap_static_result v = PyNone \/
                  exists data ttl,
                    rewrap_static_result v = PyDict [("data", data); ("ttl", ttl)]).
  { destruct v as [| b | n | s | items]; try (left; reflexivity).
    unfold rewrap_static_result.
    destruct (negb (truthy (dict_get_default items "errors" PyNone)));
      [right; eexists _, _; reflexivity | left; reflexivity]. }
  split; [exact Hform|]. split; [|split].
  - destruct Hform as [-> | (data & ttl & ->)]; reflexivity.
  - intros Hnd. destruct v as [| b | n | s | items]; try reflexivity.
    exfalso. exact (Hnd items eq_refl).
  - intros items e -> He Ht. unfold rewrap_static_result, dict_get_default.
    rewrite He, Ht. reflexivity.
Qed.

(** * Properties of the configuration loader *)

(** The environment variable consulted for a key is the same for every
    section. *)
Lemma env_override_any_section (src : ConfigSource) (key value : string) :
  getenv src ("VAULT_" ++ upper key) = Some value ->
  forall section, _get_with_env_override src section key = Returned value.
Proof.
  intros Henv section. unfold _get_with_env_override. rewrite Henv. reflexivity.
Qed.

Ltac split_lookups :=
  repeat match goal with
    | H : context [and_then ?r _] |- _ =>
        let E := fresh "E" in
        destruct r eqn:E; simpl in H; [|discriminate H]
    end.

(** X12. The environment variable of a key is named after the key alone, not
    after its section: when [VAULT_ROLE_ID] is set, [get_all_config] gives its
    value to the AppRole [role_id] of the [vault] section and, as well, to the
    [role_id] of the dynamic and of the static database section, whatever the
    file says for each. *)
Theorem role_id_override_is_shared (src : ConfigSource) (cfg : AllConfig) (value : string) :
  get_all_config src = Returned cfg ->
  getenv src "VAULT_ROLE_ID" = Some value ->
  role_id (vault cfg) = value /\
  db_role_id (database_dynamic cfg) = value /\
  db_role_id (database_static cfg) = value.
Proof.
  intros Hall Henv.
  pose proof (env_override_any_section src "role_id" value Henv) as Hrole.
  unfold get_all_config, get_vault_config, get_kv_config, get_database_dynamic_config,
    get_database_static_config, get_http_config in Hall.
  rewrite !Hrole in Hall. simpl in Hall.
  split_lookups. simplify_eq/=. auto.
Qed.

(** With [VAULT_ROLE_ID=env-role] the three roles of the file are all
    replaced. *)
Lemma role_id_override_is_shared_witness :
  exists cfg : AllConfig,
    get_all_config (MoreSamples.file_source MoreSamples.environ_role) = Returned cfg /\
    role_id (vault cfg) = "env-role" /\
    db_role_id (database_dynamic cfg) = "env-role" /\
    db_role_id (database_static cfg) = "env-role".
Proof.
  eexists. split; [reflexivity|].
  apply (role_id_override_is_shared (MoreSamples.file_source MoreSamples.environ_role));
    reflexivity.
Defined.

(** X13. The namespace handed to the client is never the empty string:
    [get_vault_config] turns an empty value into [None].  An environment
    variable [VAULT_NAMESPACE] that is set but empty still overrides the file,
    so the namespace is then [None] whatever the file says. *)
Theorem vault_namespace_never_empty (src : ConfigSource) (cfg : Config) :
  get_vault_config src = Returned cfg ->
  namespace cfg <> Some "" /\
  (getenv src "VAULT_NAMESPACE" = Some "" -> namespace cfg = None).
Proof.
  intros Hcfg. unfold get_vault_config in Hcfg.
  split.
  - split_lookups. simplify_eq/=. unfold or_None.
    destruct (String.eqb _ "") eqn:Hn; [discriminate|].
    intros Heq. injection Heq as ->. discriminate Hn.
  - intros Henv.
    rewrite (env_override_any_section src "namespace" "" Henv) in Hcfg.
    split_lookups. simplify_eq/=. reflexivity.
Qed.

(** The file with an empty namespace: the client is configured with none. *)
Lemma vault_namespace_never_empty_witness :
  exists cfg : Config,
    get_vault_config (MoreSamples.file_source (fun _ => None)) = Returned cfg /\
    namespace cfg <> Some "".
Proof.
  eexists. split; [reflexivity|].
  apply (vault_namespace_never_empty (MoreSamples.file_source (fun _ => None))).
  reflexivity.
Defined.

(** X14. When the five variables [VAULT_ENTITY], [VAULT_URL],
    [VAULT_NAMESPACE], [VAULT_ROLE_ID] and [VAULT_SECRET_ID] are set,
    [get_vault_config] returns their values and never asks the parser, so it
    returns even when the file has none of the entries.  The file must exist
    all the same: without it the application raises [FileNotFoundError] before
    anything is read. *)
Theorem vault_config_from_environment (src : ConfigSource) (e u n r s : string) :
  getenv src "VAULT_ENTITY" = Some e ->
  getenv src "VAULT_URL" = Some u ->
  getenv src "VAULT_NAMESPACE" = Some n ->
  getenv src "VAULT_ROLE_ID" = Some r ->
  getenv src "VAULT_SECRET_ID" = Some s ->
  get_vault_config src
  = Returned {| entity := e; url := u;
                namespace := if String.eqb n "" then None else Some n;
                role_id := r; secret_id := s |} /\
  (path_exists src = false ->
   application_config src = Raised (PyException "FileNotFoundError")).
Proof.
  intros He Hu Hn Hr Hs. split.
  - unfold get_vault_config.
    rewrite (env_override_any_section src "entity" e He),
      (env_override_any_section src "url" u Hu),
      (env_override_any_section src "namespace" n Hn),
      (env_override_any_section src "role_id" r Hr),
      (env_override_any_section src "secret_id" s Hs).
    reflexivity.
  - intros Hfile. unfold application_config, _load_config. rewrite Hfile. reflexivity.
Qed.

(** The five variables set and no file: the [vault] section is complete, the
    application does not start. *)
Lemma vault_config_from_environment_witness :
  get_vault_config (MoreSamples.no_file_source MoreSamples.environ_vault)
  = Returned {| entity := "env-app"; url := "https://vault:8200"; namespace := None;
                role_id := "env-role"; secret_id := "env-secret" |} /\
  application_config (MoreSamples.no_file_source MoreSamples.environ_vault)
  = Raised (PyException "FileNotFoundError").
Proof.
  destruct (vault_config_from_environment
              (MoreSamples.no_file_source MoreSamples.environ_vault)
              "env-app" "https://vault:8200" "" "env-role" "env-secret"
              eq_refl eq_refl eq_refl eq_refl eq_refl) as [Hcfg Hfile].
  split; [exact Hcfg | exact (Hfile eq_refl)].
Defined.

(** * Properties of the application *)

(** ** [get_token_info] *)

(** X15. [get_token_info] always returns.  It leaves the client exactly as
    [ensure_valid_token] left it, so the lookup changes neither the token nor
    a cache.  When the token cannot be ensured it answers [None] without a
    lookup; otherwise it makes exactly one lookup and answers its data, or
    [None] when the lookup raises. *)
Theorem get_token_info_effects (env : AppEnv) (w : AppWorld) :
  exists (ok : bool) (w1 : World) (v : pyval),
    ensure_valid_token (client_env env) (client_world w) = (Returned ok, w1) /\
    get_token_info env w
    = (Returned v,
       {| client_world := w1;
          lookups := if ok then S (lookups w) else lookups w;
          outputs := outputs w |}) /\
    (ok = false -> v = PyNone) /\
    (ok = true ->
       v = match lookup_self env (lookups w) (calls w1) with
           | Returned response => lookup_data response
           | Raised _ => PyNone
           end).
Proof.
  destruct (ensure_valid_token_total (client_env env) (client_world w))
    as (ok & w1 & E & _).
  exists ok, w1.
  unfold get_token_info, app_bind, call_client, app_try, remote_lookup_self, app_ret.
  rewrite E. destruct ok; simpl.
  - destruct (lookup_self env (lookups w) (calls w1)) as [response|[msg|msg]];
      eexists; (split; [reflexivity|]); (split; [reflexivity|]);
      split; [discriminate|reflexivity|discriminate|reflexivity|discriminate|reflexivity].
  - eexists. split; [reflexivity|]. split; [reflexivity|].
    split; [reflexivity|discriminate].
Qed.

(** ** The scheduler loops *)

Ltac finish_printed := (split; [reflexivity|]); repeat constructor.

Ltac printed_upto :=
  first [ solve [exists []; finish_printed]
        | solve [eexists [_]; finish_printed]
        | solve [eexists [_; _]; finish_printed]
        | solve [eexists [_; _; _]; finish_printed]
        | solve [eexists [_; _; _; _]; finish_printed]
        | solve [eexists [_; _; _; _; _]; finish_printed] ].

Ltac iteration_cases :=
  repeat match goal with
    | |- context [match ?x with _ => _ end] =>
        lazymatch x with
        | context [match _ with _ => _ end] => fail
        | _ => destruct x eqn:?; simpl
        end
    end.

(** X16. One pass of a scheduler loop always returns, whatever the endpoint
    answers and whatever the secret looks like: an exception raised in the
    body (a missing ['username'], a negative sleep length) ends in the
    handler.  The pass calls its get-secret operation exactly once, makes no
    token lookup, and its last act is its only sleep: 5 seconds in the dynamic
    loop, 10 in the static loop, and in the KV loop the configured interval,
    or 5 when that interval is negative. *)
Theorem scheduler_iteration_always_sleeps (env : AppEnv) (w : AppWorld) (cfg : AllConfig) :
  (exists (w' : AppWorld) (printed : list Output),
     kv_secret_iteration cfg env w = (Returned tt, w') /\
     client_world w'
     = snd (get_kv_secret (kv_path (kv_secret cfg)) (client_env env) (client_world w)) /\
     lookups w' = lookups w /\
     outputs w'
     = (Sleep (if (refresh_interval (kv_secret cfg) <? 0)%Z then 5
               else refresh_interval (kv_secret cfg))
          :: printed ++ outputs w)%list /\
     Forall (fun o => is_sleep o = false) printed) /\
  (exists (w' : AppWorld) (printed : list Output),
     database_dynamic_iteration cfg env w = (Returned tt, w') /\
     client_world w'
     = snd (get_database_dynamic_secret (db_role_id (database_dynamic cfg))
              (client_env env) (client_world w)) /\
     lookups w' = lookups w /\
     outputs w' = (Sleep 5 :: printed ++ outputs w)%list /\
     Forall (fun o => is_sleep o = false) printed) /\
  (exists (w' : AppWorld) (printed : list Output),
     database_static_iteration cfg env w = (Returned tt, w') /\
     client_world w'
     = snd (get_database_static_secret (db_role_id (database_static cfg))
              (client_env env) (client_world w)) /\
     lookups w' = lookups w /\
     outputs w' = (Sleep 10 :: printed ++ outputs w)%list /\
     Forall (fun o => is_sleep o = false) printed).
Proof.
  split; [|split].
  - destruct (get_kv_secret_returns (kv_path (kv_secret cfg)) (client_env env)
                (client_world w)) as (v & cw & Hget).
    unfold kv_secret_iteration, app_try, app_bind, call_client, output, sleep.
    simpl. rewrite Hget. simpl.
    destruct (truthy v); simpl;
      destruct (refresh_interval (kv_secret cfg) <? 0)%Z; simpl;
      eexists _; printed_upto.
  - destruct (get_database_dynamic_secret_returns (db_role_id (database_dynamic cfg))
                (client_env env) (client_world w)) as (v & cw & Hget).
    unfold database_dynamic_iteration, app_try, app_bind, call_client, output, sleep,
      subscript.
    simpl. rewrite Hget. simpl.
    iteration_cases; eexists _; printed_upto.
  - destruct (get_database_static_secret_returns (db_role_id (database_static cfg))
                (client_env env) (client_world w)) as (v & cw & Hget).
    unfold database_static_iteration, app_try, app_bind, call_client, output, sleep,
      subscript.
    simpl. rewrite Hget. simpl.
    iteration_cases; eexists _; printed_upto.
Qed.

(** X17. The KV loop takes an empty secret for a failure.  When the read of
    the secret is answered with data that is false as a Python value (the
    empty mapping, for one), the pass stores the secret in the cache like any
    other, and yet writes the failure line and nothing of the secret. *)
Theorem kv_iteration_empty_secret (env : AppEnv) (w : AppWorld) (cfg : AllConfig)
    (w1 : World) (response : KvResponse) :
  ensure_valid_token (client_env env) (client_world w) = (Returned true, w1) ->
  ~ kv_usable (self (client_world w)) (kv_path (kv_secret cfg))
      (time_time (client_env env) (clock_reads w1)) ->
  read_secret_version (client_env env) (calls w1) (kv_path (kv_secret cfg))
    (entity (config (self w1)) ++ "-kv") = Returned response ->
  truthy (resp_data response) = false ->
  (0 <= refresh_interval (kv_secret cfg))%Z ->
  let w' := snd (kv_secret_iteration cfg env w) in
  outputs w'
  = Sleep (refresh_interval (kv_secret cfg))
      :: Print "❌ KV 시크릿 조회 실패"
      :: Print (nl ++ "=== KV Secret Refresh ===")
      :: outputs w /\
  exists t, kv_cache (self (client_world w')) !! kv_path (kv_secret cfg)
            = Some (kv_entry response t).
Proof.
  intros E Hn Hr Hfalsy Hint w'. subst w'.
  destruct (kv_fetch_stores (client_env env) (client_world w) w1
              (kv_path (kv_secret cfg)) response E Hn Hr) as [Hres Hstored].
  unfold kv_secret_iteration, app_try, app_bind, call_client, output, sleep. simpl.
  destruct (get_kv_secret (kv_path (kv_secret cfg)) (client_env env) (client_world w))
    as [r cw]. simpl in Hres, Hstored. subst r. simpl.
  rewrite Hfalsy. simpl.
  destruct (refresh_interval (kv_secret cfg) <? 0)%Z eqn:Hneg;
    [apply Z.ltb_lt in Hneg; lia|].
  simpl. split; [reflexivity|]. eexists. exact Hstored.
Qed.

(** X18. On a cache hit the static loop displays a TTL of -1.  When the token
    is ensured and the credentials of the role (a mapping with ['username']
    and ['password'] and without the keys ['errors'], ['data'], ['ttl'],
    ['lease_duration']) are found fresh in the cache, the pass makes no remote
    read and writes both TTL lines with -1, whatever [ttl] the entry was stored
    with, then the credentials, and sleeps 10 seconds. *)
Theorem static_iteration_hit_shows_minus_one (env : AppEnv) (w : AppWorld)
    (cfg : AllConfig) (w1 : World) (cached : DbEntry)
    (items : list (string * pyval)) (username password : pyval) :
  ensure_valid_token (client_env env) (client_world w) = (Returned true, w1) ->
  db_static_cache (self (client_world w)) !! db_role_id (database_static cfg)
  = Some cached ->
  spec_time_window_fresh (time_time (client_env env) (clock_reads w1))
    (db_timestamp cached) ->
  db_data cached = PyDict items ->
  dict_get items "errors" = None ->
  dict_get items "data" = None ->
  dict_get items "ttl" = None ->
  dict_get items "lease_duration" = None ->
  dict_get items "username" = Some username ->
  dict_get items "password" = Some password ->
  database_static_iteration cfg env w
  = (Returned tt,
     {| client_world := tick w1;
        lookups := lookups w;
        outputs :=
          Sleep 10
            :: PrintF "  password: " password ""
            :: PrintF "  username: " username ""
            :: PrintF "🔒 Database Static Secret (TTL: " (PyInt (-1)) "초):"
            :: PrintF "✅ Database Static 시크릿 조회 성공 (TTL: " (PyInt (-1)) "초)"
            :: Print (nl ++ "=== Database Static Secret Refresh ===")
            :: outputs w |}).
Proof.
  intros E Hl Hf Hd He Hda Ht Hld Hu Hp.
  unfold database_static_iteration, app_try, app_bind, call_client, output, sleep,
    subscript. simpl.
  rewrite (static_hit (client_env env) (client_world w) w1 _ E cached Hl Hf). simpl.
  rewrite Hd, (rewrap_bare items He Hda Ht Hld). simpl.
  rewrite Hu, Hp. reflexivity.
Qed.

(** The static credentials stored at 0 with a [ttl] of 3600, displayed at 10:
    the TTL lines show -1. *)
Lemma static_iteration_hit_shows_minus_one_witness :
  outputs (snd (database_static_iteration MoreSamples.all_config
                  MoreSamples.app_env_ok
                  (app_start (Samples.start Samples.cached_client))))
  = [Sleep 10;
     PrintF "  password: " (PyStr "pw") "";
     PrintF "  username: " (PyStr "v-app") "";
     PrintF "🔒 Database Static Secret (TTL: " (PyInt (-1)) "초):";
     PrintF "✅ Database Static 시크릿 조회 성공 (TTL: " (PyInt (-1)) "초)";
     Print (nl ++ "=== Database Static Secret Refresh ===")].
Proof.
  rewrite (static_iteration_hit_shows_minus_one MoreSamples.app_env_ok
             (app_start (Samples.start Samples.cached_client))
             MoreSamples.all_config
             (tick (tick (Samples.start Samples.cached_client)))
             {| db_data := Samples.creds; db_ttl := 3600; db_timestamp := 0 |}
             [("username", PyStr "v-app"); ("password", PyStr "pw")]
             (PyStr "v-app") (PyStr "pw")
             eq_refl eq_refl eq_refl eq_refl eq_refl eq_refl eq_refl eq_refl
             eq_refl eq_refl).
  reflexivity.
Defined.

(** An empty secret, read by a client logged in at 0 for 100 seconds with the
    clock at 10: the failure line, and the entry in the cache. *)
Lemma kv_iteration_empty_secret_witness :
  outputs (snd (kv_secret_iteration MoreSamples.all_config MoreSamples.app_env_empty
                  (app_start (Samples.start Samples.logged_in))))
  = [Sleep 5; Print "❌ KV 시크릿 조회 실패"; Print (nl ++ "=== KV Secret Refresh ===")].
Proof.
  destruct (kv_iteration_empty_secret MoreSamples.app_env_empty
              (app_start (Samples.start Samples.logged_in))
              MoreSamples.all_config
              (tick (tick (Samples.start Samples.logged_in)))
              {| resp_data := PyDict []; resp_metadata := {| version := 1 |} |}
              eq_refl) as [Hout _].
  - intros (cached & Hl & _). vm_compute in Hl. discriminate Hl.
  - reflexivity.
  - reflexivity.
  - discriminate.
  - exact Hout.
Defined.

(** X19. Generated credentials without a ['username'] are paid for and not
    shown.  When the dynamic loop generates credentials whose mapping has no
    ['username'], the pass stores them in the cache and writes the two TTL
    lines with the lease, then the missing key raises in the body: no
    credential line is written and the pass ends with the 5 seconds of the
    handler. *)
Theorem dynamic_iteration_missing_username (env : AppEnv) (w : AppWorld)
    (cfg : AllConfig) (w1 : World) (response : DynamicResponse)
    (items : list (string * pyval)) :
  ensure_valid_token (client_env env) (client_world w) = (Returned true, w1) ->
  ~ dynamic_usable (self (client_world w)) (db_role_id (database_dynamic cfg))
      (time_time (client_env env) (clock_reads w1)) ->
  generate_credentials (client_env env) (calls w1) (db_role_id (database_dynamic cfg))
    (entity (config (self w1)) ++ "-database") = Returned response ->
  dyn_data response = PyDict items ->
  dict_get items "username" = None ->
  let w' := snd (database_dynamic_iteration cfg env w) in
  outputs w'
  = Sleep 5
      :: PrintF "🗄️ Database Dynamic Secret (TTL: "
           (PyInt (dyn_lease_duration response)) "초):"
      :: PrintF "✅ Database Dynamic 시크릿 조회 성공 (TTL: "
           (PyInt (dyn_lease_duration response)) "초)"
      :: Print (nl ++ "=== Database Dynamic Secret Refresh ===")
      :: outputs w /\
  exists t, db_dynamic_cache (self (client_world w')) !! db_role_id (database_dynamic cfg)
            = Some (dynamic_entry response t).
Proof.
  intros E Hn Hr Hd Hu w'. subst w'.
  destruct (dynamic_fetch_stores (client_env env) (client_world w) w1
              (db_role_id (database_dynamic cfg)) response E Hn Hr) as [Hres Hstored].
  unfold database_dynamic_iteration, app_try, app_bind, call_client, output, sleep,
    subscript. simpl.
  destruct (get_database_dynamic_secret (db_role_id (database_dynamic cfg))
              (client_env env) (client_world w)) as [r cw].
  simpl in Hres, Hstored. subst r. simpl. rewrite Hd, Hu. simpl.
  split; [reflexivity|]. eexists. exact Hstored.
Qed.

(** Credentials with a ['user'] instead of a ['username']. *)
Lemma dynamic_iteration_missing_username_witness :
  outputs (snd (database_dynamic_iteration MoreSamples.all_config
                  MoreSamples.app_env_empty
                  (app_start (Samples.start Samples.logged_in))))
  = [Sleep 5;
     PrintF "🗄️ Database Dynamic Secret (TTL: " (PyInt 60) "초):";
     PrintF "✅ Database Dynamic 시크릿 조회 성공 (TTL: " (PyInt 60) "초)";
     Print (nl ++ "=== Database Dynamic Secret Refresh ===")].
Proof.
  destruct (dynamic_iteration_missing_username MoreSamples.app_env_empty
              (app_start (Samples.start Samples.logged_in))
              MoreSamples.all_config
              (tick (tick (Samples.start Samples.logged_in)))
              {| dyn_data := PyDict [("user", PyStr "v-app")]; dyn_lease_duration := 60 |}
              [("user", PyStr "v-app")]
              eq_refl) as [Hout _].
  - intros (cached & Hl & _). vm_compute in Hl. discriminate Hl.
  - reflexivity.
  - reflexivity.
  - reflexivity.
  - exact Hout.
Defined.

(** ** The token after [ensure_valid_token] *)

(** X20. When the endpoint never answers a login with the empty token, a
    token is held after every [ensure_valid_token] that returns true. *)
Theorem ensure_valid_token_true_holds_token (env : Env) (w w1 : World) :
  (forall history role secret response,
     approle_login env history role secret = Returned response ->
     auth_client_token response <> "") ->
  ensure_valid_token env w = (Returned true, w1) ->
  token_held (self w1).
Proof.
  intros Hnonempty. unfold token_held.
  rewrite ensure_valid_token_run, (is_token_expired_run env w).
  destruct (token_truthy (token (self w))) eqn:Ht; simpl.
  - destruct (token_ttl (self w) <=? 0)%Z eqn:Hl; simpl;
      [|destruct (Qle_bool _ _)].
    + rewrite login_run.
      destruct (approle_login env _ _ _) as [response|e] eqn:Hr;
        intros H; [injection H as <- | discriminate H].
      simpl. apply token_truthy_nonempty. exact (Hnonempty _ _ _ _ Hr).
    + rewrite login_run.
      destruct (approle_login env _ _ _) as [response|e] eqn:Hr;
        intros H; [injection H as <- | discriminate H].
      simpl. apply token_truthy_nonempty. exact (Hnonempty _ _ _ _ Hr).
    + rewrite (is_token_expired_run env (tick w)). simpl. rewrite Ht, Hl. simpl.
      destruct (Qle_bool _ _).
      * rewrite renew_token_run.
        destruct (renew_self env _ _) as [response|e];
          intros H; [injection H as <- | discriminate H].
        simpl. exact Ht.
      * intros H. injection H as <-. simpl. exact Ht.
  - rewrite login_run.
    destruct (approle_login env _ _ _) as [response|e] eqn:Hr;
      intros H; [injection H as <- | discriminate H].
    simpl. apply token_truthy_nonempty. exact (Hnonempty _ _ _ _ Hr).
Qed.

(** A new client on the sample endpoint holds ["s.new"] after
    [ensure_valid_token]. *)
Lemma ensure_valid_token_true_holds_token_witness :
  token_held (self (snd (ensure_valid_token (Samples.env_ok (fun _ => 5%Q))
                           (Samples.start (init Samples.cfg))))).
Proof.
  apply (ensure_valid_token_true_holds_token (Samples.env_ok (fun _ => 5%Q))
           (Samples.start (init Samples.cfg))).
  - intros history role secret response H. injection H as <-. discriminate.
  - reflexivity.
Defined.
